(** * Marketplace analyzer: scraping heuristics, supplier scoring, reports

    A shallow embedding of [scripts/github_actions_enhanced_analyzer.py]
    (class [GitHubActionsMarketplaceAnalyzer] and [main]) and of
    [scripts/simple_marketplace_analyzer.py].

    Conventions of the embedding.
    - A Python [str] is a [string]: the UTF-8 bytes of the text.  Substring
      tests on UTF-8 bytes agree with substring tests on code points.
      [str.lower] is modelled on the ASCII letters, [\d] on the ASCII
      digits, [str.strip] on the ASCII white space, and a slice [s[:n]]
      counts bytes.
    - A Python [float] is a primitive binary64 [float]; [float(text)],
      [round(x, 2)] and the [.0f] format are written out on the exact
      value of the number, with round-to-nearest-even.
    - A Python [int] is a [Z]; [int(text)] reads ASCII digits.
    - The parsed page (BeautifulSoup) is a tree of text and element nodes.
    - Files written and the clock are explicit: a function that writes
      takes the time stamp and returns the files next to its outcome. *)

From Stdlib Require Import ZArith List String Ascii Bool Lia Floats.
From Stdlib Require Import Sorting.Permutation Sorting.Sorted.
From Stdlib Require DecimalString.
Import ListNotations.

Local Open Scope string_scope.
Local Open Scope Z_scope.

#[local] Set Warnings "-register-all".

(** ** Python strings *)

Module PyStr.

Definition is_upper (c : ascii) : bool :=
  let n := N_of_ascii c in (65 <=? n)%N && (n <=? 90)%N.

Definition lower_char (c : ascii) : ascii :=
  if is_upper c then ascii_of_N (N_of_ascii c + 32) else c.

(** [s.lower()] *)
Fixpoint lower (s : string) : string :=
  match s with
  | EmptyString => EmptyString
  | String c r => String (lower_char c) (lower r)
  end.

(** [needle in hay] *)
Fixpoint str_in (needle hay : string) : bool :=
  if prefix needle hay then true
  else match hay with
       | EmptyString => false
       | String _ r => str_in needle r
       end.

(** [any(w in s for w in words)] *)
Definition any_in (words : list string) (s : string) : bool :=
  existsb (fun w => str_in w s) words.

(** [sum(1 for w in words if w in s)] *)
Definition count_in (words : list string) (s : string) : Z :=
  fold_left (fun acc w => if str_in w s then acc + 1 else acc) words 0.

(** [s[:n]] *)
Fixpoint slice_to (n : nat) (s : string) : string :=
  match n, s with
  | S k, String c r => String c (slice_to k r)
  | _, _ => EmptyString
  end.

Definition is_digit (c : ascii) : bool :=
  let n := N_of_ascii c in (48 <=? n)%N && (n <=? 57)%N.

Definition digit_val (c : ascii) : Z := Z.of_N (N_of_ascii c) - 48.

Definition is_space (c : ascii) : bool :=
  let n := N_of_ascii c in
  ((9 <=? n)%N && (n <=? 13)%N) || ((28 <=? n)%N && (n <=? 32)%N).

Fixpoint lstrip (s : string) : string :=
  match s with
  | String c r => if is_space c then lstrip r else s
  | EmptyString => EmptyString
  end.

Fixpoint rstrip (s : string) : string :=
  match s with
  | EmptyString => EmptyString
  | String c r =>
      match rstrip r with
      | EmptyString => if is_space c then EmptyString else String c EmptyString
      | r' => String c r'
      end
  end.

(** [s.strip()] *)
Definition strip (s : string) : string := rstrip (lstrip s).

(** The longest prefix of [s] made of characters satisfying [p], and the
    rest of [s]. *)
Fixpoint span (p : ascii -> bool) (s : string) : string * string :=
  match s with
  | String c r =>
      if p c then let '(a, b) := span p r in (String c a, b)
      else (EmptyString, s)
  | EmptyString => (EmptyString, EmptyString)
  end.

Fixpoint filter (p : ascii -> bool) (s : string) : string :=
  match s with
  | EmptyString => EmptyString
  | String c r => if p c then String c (filter p r) else filter p r
  end.

(** [s.replace(old, new)] for a non-empty [old]: [skip] counts the
    characters of a matched [old] that are still to be dropped. *)
Fixpoint replace_from (old new : string) (skip : nat) (s : string) : string :=
  match s with
  | EmptyString => EmptyString
  | String c r =>
      match skip with
      | S k => replace_from old new k r
      | O =>
          if prefix old s
          then new ++ replace_from old new (Nat.pred (String.length old)) r
          else String c (replace_from old new O r)
      end
  end.

Definition replace (old new s : string) : string := replace_from old new O s.

(** [s.split(sep)[0]] for a one-character [sep] *)
Fixpoint split_head (sep : ascii) (s : string) : string :=
  match s with
  | EmptyString => EmptyString
  | String c r => if Ascii.eqb c sep then EmptyString else String c (split_head sep r)
  end.

(** [str(n)] for an [int] *)
Definition str_of_Z (n : Z) : string :=
  DecimalString.NilZero.string_of_int (Z.to_int n).

(** The value of a string of ASCII digits read in base ten. *)
Definition Z_of_digits (s : string) : Z :=
  (fix go (acc : Z) (s : string) : Z :=
     match s with
     | EmptyString => acc
     | String c r => go (10 * acc + digit_val c) r
     end) 0 s.

Fixpoint all_chars (p : ascii -> bool) (s : string) : bool :=
  match s with
  | EmptyString => true
  | String c r => p c && all_chars p r
  end.

End PyStr.

(** ** Python numbers *)

Module PyNum.

(** [a / b] on two [int]s with [b] positive: the exact quotient rounded
    to the nearest binary64 number, ties to even.  The quotient is taken
    on the exact operands, so it is rounded once. *)
Definition true_div (a : Z) (b : positive) : float :=
  match a with
  | Z0 => SF2Prim (S754_zero false)
  | Zpos p => SF2Prim (SFdiv prec emax (S754_finite false p 0) (S754_finite false b 0))
  | Zneg p => SF2Prim (SFdiv prec emax (S754_finite true p 0) (S754_finite false b 0))
  end.

Definition pow10 (k : nat) : positive := Z.to_pos (10 ^ Z.of_nat k).

(** The number [m / 10^k] as a float: what [float] returns on the decimal
    text of the number. *)
Definition float_of_decimal (m : Z) (k : nat) : float := true_div m (pow10 k).

(** [float(s)] for a text [s] of ASCII digits with at most one point, the
    only texts the analyzer passes to [float]: [None] stands for the
    [ValueError] raised on a text without a digit. *)
Definition float_of_text (s : string) : option float :=
  let '(ip, rest) := PyStr.span PyStr.is_digit s in
  match rest with
  | EmptyString =>
      match ip with
      | EmptyString => None
      | _ => Some (float_of_decimal (PyStr.Z_of_digits ip) 0)
      end
  | String "." fp =>
      if PyStr.all_chars PyStr.is_digit fp then
        match ip, fp with
        | EmptyString, EmptyString => None
        | _, _ =>
            Some (float_of_decimal (PyStr.Z_of_digits (ip ++ fp))
                    (String.length fp))
        end
      else None
  | _ => None
  end.

(** Division of a non-negative [a] by a positive [b], rounded to the
    nearest integer, ties to the even one. *)
Definition div_half_even (a b : Z) : Z :=
  let q := a / b in
  let r := a mod b in
  match 2 * r ?= b with
  | Lt => q
  | Gt => q + 1
  | Eq => if Z.even q then q else q + 1
  end.

(** The exact value of [|x| * 10^k], for a finite [x], rounded to the
    nearest integer, ties to even. *)
Definition scaled_round (k : nat) (m : positive) (e : Z) : Z :=
  let a := Zpos m * Zpos (pow10 k) in
  if 0 <=? e then a * 2 ^ e else div_half_even a (2 ^ (- e)).

(** [round(x, 2)]: the decimal with two places nearest to the exact value
    of [x], read back as a float; infinities and NaN are returned as they
    are. *)
Definition round2 (x : float) : float :=
  match Prim2SF x with
  | S754_finite s m e =>
      let q := scaled_round 2 m e in
      match q with
      | Z0 => SF2Prim (S754_zero s)
      | _ => float_of_decimal (if s then - q else q) 2
      end
  | _ => x
  end.

(** [f"{x:.0f}"] *)
Definition format_0f (x : float) : string :=
  match Prim2SF x with
  | S754_zero s => if s then "-0" else "0"
  | S754_infinity s => if s then "-inf" else "inf"
  | S754_nan => "nan"
  | S754_finite s m e =>
      (if s then "-" else "") ++ PyStr.str_of_Z (scaled_round 0 m e)
  end.

(** Whether [s] is made of digits, with single underscores allowed between
    two digits: [after_digit] tells that the character before was a
    digit. *)
Fixpoint digit_groups (after_digit : bool) (s : string) : bool :=
  match s with
  | EmptyString => after_digit
  | String c r =>
      if PyStr.is_digit c then digit_groups true r
      else if Ascii.eqb c "_" then after_digit && digit_groups false r
      else false
  end.

(** [int(s)] on a text: white space around, a sign, and ASCII digits in
    groups joined by single underscores; [None] stands for the
    [ValueError] on any other text. *)
Definition int_of_text (s : string) : option Z :=
  let body := PyStr.strip s in
  let '(negative, digits) :=
    match body with
    | String "-" r => (true, r)
    | String "+" r => (false, r)
    | _ => (false, body)
    end in
  if digit_groups false digits then
    let n := PyStr.Z_of_digits (PyStr.filter PyStr.is_digit digits) in
    Some (if negative then - n else n)
  else None.

(** A numeric cell of a pandas row: an [int64] or a [float64]. *)
Inductive num : Type :=
| Int (z : Z)
| Float (f : float).

(** [n > k] for an integer constant [k] *)
Definition num_gt (n : num) (k : Z) : bool :=
  match n with
  | Int z => k <? z
  | Float f => PrimFloat.ltb (float_of_decimal k 0) f
  end.

(** [pd.notna(n)] *)
Definition num_notna (n : num) : bool :=
  match n with
  | Int _ => true
  | Float f => negb (PrimFloat.is_nan f)
  end.

Definition fzero : float := float_of_decimal 0 0.
Definition fone : float := float_of_decimal 1 0.
Definition fhalf : float := float_of_decimal 5 1.
Definition f03 : float := float_of_decimal 3 1.
Definition f3 : float := float_of_decimal 3 0.
Definition f100 : float := float_of_decimal 100 0.
Definition f50000 : float := float_of_decimal 50000 0.

End PyNum.


(** ** The parsed page *)

Module Soup.

(** A BeautifulSoup tree: text nodes and elements with their attributes
    and children, in document order. *)
Inductive node : Type :=
| Text (s : string)
| Elem (name : string) (attrs : list (string * string)) (children : list node).

Definition t : Type := list node.

(** [tag.get(key)] *)
Fixpoint attr (key : string) (attrs : list (string * string)) : option string :=
  match attrs with
  | [] => None
  | (k, v) :: r => if String.eqb k key then Some v else attr key r
  end.

(** [tag.get_text()]: the text nodes below [n], concatenated. *)
Fixpoint node_text (n : node) : string :=
  match n with
  | Text s => s
  | Elem _ _ cs =>
      (fix go (l : list node) : string :=
         match l with
         | [] => EmptyString
         | c :: r => node_text c ++ go r
         end) cs
  end.

(** [soup.get_text()] *)
Definition get_text (doc : t) : string :=
  fold_right (fun n acc => node_text n ++ acc) EmptyString doc.

(** The first element at or below [n], in document order, whose name and
    attributes satisfy [p]. *)
Fixpoint find_in (p : string -> list (string * string) -> bool) (n : node)
  : option node :=
  match n with
  | Text _ => None
  | Elem name attrs cs =>
      if p name attrs then Some n
      else (fix go (l : list node) : option node :=
              match l with
              | [] => None
              | c :: r =>
                  match find_in p c with
                  | Some x => Some x
                  | None => go r
                  end
              end) cs
  end.

(** [soup.find(...)] with the test [p] on an element's name and
    attributes. *)
Fixpoint find (p : string -> list (string * string) -> bool) (doc : t)
  : option node :=
  match doc with
  | [] => None
  | n :: r =>
      match find_in p n with
      | Some x => Some x
      | None => find p r
      end
  end.

Definition node_attrs (n : node) : list (string * string) :=
  match n with
  | Text _ => []
  | Elem _ attrs _ => attrs
  end.

(** [soup.find(name)] *)
Definition by_name (name : string) : string -> list (string * string) -> bool :=
  fun n _ => String.eqb n name.

(** [soup.find(name, attrs={key: value})] *)
Definition by_attr (name key value : string)
  : string -> list (string * string) -> bool :=
  fun n attrs =>
    String.eqb n name &&
    match attr key attrs with
    | Some v => String.eqb v value
    | None => false
    end.

(** [soup.find(name, {key: True})] *)
Definition having_attr (name key : string)
  : string -> list (string * string) -> bool :=
  fun n attrs =>
    String.eqb n name &&
    match attr key attrs with
    | Some _ => true
    | None => false
    end.

End Soup.

(** ** The analysis of a marketplace, as the analyzer's dictionaries *)

Module PriceAnalysis.
Record t : Type := mk {
  average_price : float;
  min_price : float;
  max_price : float;
  price_count : Z;
  currency_detected : string
}.
End PriceAnalysis.

Module BrandAnalysis.
Record t : Type := mk {
  positioning : string;
  luxury_score : Z;
  value_score : Z
}.
End BrandAnalysis.

Module Analysis.
Record t : Type := mk {
  url : string;
  title : string;
  description : string;
  categories : list string;
  price_analysis : PriceAnalysis.t;
  brand_analysis : BrandAnalysis.t;
  language : string;
  country : string;
  analysis_timestamp : string
}.
End Analysis.

(** ** Regular expressions of the analyzer *)

Module Re.

Definition is_digit_or_comma (c : ascii) : bool :=
  PyStr.is_digit c || Ascii.eqb c ",".

Definition is_digit_or_point (c : ascii) : bool :=
  PyStr.is_digit c || Ascii.eqb c ".".

Fixpoint drop (n : nat) (s : string) : string :=
  match n, s with
  | S k, String _ r => drop k r
  | _, _ => s
  end.

(** The match of [sym[\d,]+\.?\d*] (with [fraction]) or of [sym[\d,]+]
    (without) at the start of [s], if there is one.  Every quantifier is
    greedy and none has to give back a character. *)
Definition match_price (sym : string) (fraction : bool) (s : string)
  : option string :=
  if prefix sym s then
    let '(body, rest) := PyStr.span is_digit_or_comma (drop (String.length sym) s) in
    match body with
    | EmptyString => None
    | _ =>
        if fraction then
          match rest with
          | String "." rest' =>
              Some (sym ++ body ++ "." ++ fst (PyStr.span PyStr.is_digit rest'))
          | _ => Some (sym ++ body ++ fst (PyStr.span PyStr.is_digit rest))
          end
        else Some (sym ++ body)
    end
  else None.

(** [re.findall] of such a pattern: the matches from left to right, each
    search resuming where the last match ended; [skip] counts the
    characters of the last match still to be passed. *)
Fixpoint findall_from (sym : string) (fraction : bool) (skip : nat) (s : string)
  : list string :=
  match s with
  | EmptyString => []
  | String _ r =>
      match skip with
      | S k => findall_from sym fraction k r
      | O =>
          match match_price sym fraction s with
          | Some m => m :: findall_from sym fraction (Nat.pred (String.length m)) r
          | None => findall_from sym fraction O r
          end
      end
  end.

Definition findall (sym : string) (fraction : bool) (s : string) : list string :=
  findall_from sym fraction O s.

(** [re.search(r'[\d,]+', s)], and [.group()] of the match: the first
    longest run of digits and commas. *)
Fixpoint search_digits_commas (s : string) : option string :=
  match s with
  | EmptyString => None
  | String c r =>
      if is_digit_or_comma c then Some (fst (PyStr.span is_digit_or_comma s))
      else search_digits_commas r
  end.

End Re.


(** ** How a run of a script ends *)

Module Process.

Inductive termination : Type :=
| SysExit (code : Z) (message : string)
    (** [print(message)] and [sys.exit(code)] *)
| Uncaught (exception : string)
    (** an exception no handler catches: the interpreter prints the
        trace and exits with status 1 *)
| Finished.
    (** the script runs to its end *)

Definition exit_status (t : termination) : Z :=
  match t with
  | SysExit code _ => code
  | Uncaught _ => 1
  | Finished => 0
  end.

End Process.

(** ** [GitHubActionsMarketplaceAnalyzer]: the feature extractor *)

Module Enhanced.

(** [_extract_title] *)
Definition _extract_title (soup : Soup.t) : string :=
  match Soup.find (Soup.by_name "title") soup with
  | Some title_elem => PyStr.strip (Soup.node_text title_elem)
  | None => "Unknown Marketplace"
  end.

(** [_extract_description] *)
Definition _extract_description (soup : Soup.t) : string :=
  match Soup.find (Soup.by_attr "meta" "name" "description") soup with
  | Some meta_desc =>
      PyStr.slice_to 200
        (match Soup.attr "content" (Soup.node_attrs meta_desc) with
         | Some c => c
         | None => EmptyString
         end)
  | None =>
      match Soup.find (Soup.by_name "p") soup with
      | Some first_p => PyStr.slice_to 200 (Soup.node_text first_p)
      | None => EmptyString
      end
  end.

Definition category_keywords : list (string * list string) :=
  [ ("fashion", ["fashion"; "clothing"; "apparel"; "dress"; "shirt"; "pants"; "denim"; "jeans"]);
    ("beauty", ["beauty"; "cosmetics"; "makeup"; "skincare"; "perfume"; "skincare device"; "facial"]);
    ("electronics", ["electronics"; "phone"; "laptop"; "computer"; "gadget"; "tech"]);
    ("home", ["home"; "furniture"; "decor"; "kitchen"; "bedroom"; "living"]);
    ("sports", ["sports"; "fitness"; "outdoor"; "exercise"; "athletic"; "cycling"; "winter sports"]);
    ("jewelry", ["jewelry"; "watch"; "necklace"; "ring"; "bracelet"; "accessories"]);
    ("books", ["books"; "reading"; "literature"; "novel"; "textbook"]);
    ("toys", ["toys"; "games"; "children"; "kids"; "play"]);
    ("automotive", ["car"; "auto"; "vehicle"; "parts"; "automotive"]);
    ("health", ["health"; "medical"; "wellness"; "supplement"; "pharmacy"]);
    ("pets", ["pet"; "dog"; "cat"; "animal"; "pet food"; "pet toy"; "pet care"]) ].

(** The loop of [_extract_categories] on the lower-cased page text. *)
Definition categories_of_text (text_content : string) : list string :=
  fold_left
    (fun categories '(category, keywords) =>
       if PyStr.any_in keywords text_content
       then (categories ++ [category])%list
       else categories)
    category_keywords [].

(** [_extract_categories] *)
Definition _extract_categories (soup : Soup.t) : list string :=
  let text_content := PyStr.lower (Soup.get_text soup) in
  firstn 10 (categories_of_text text_content).

Definition currency_indicators : list (string * list string) :=
  [ ("USD", ["$"; "usd"; "dollar"]);
    ("EUR", ["€"; "eur"; "euro"]);
    ("GBP", ["£"; "gbp"; "pound"]);
    ("JPY", ["¥"; "jpy"; "yen"]);
    ("INR", ["₹"; "inr"; "rupee"]) ].

(** [_detect_currency] *)
Definition _detect_currency (soup : Soup.t) : string :=
  let text_content := Soup.get_text soup in
  match find (fun '(_, indicators) => PyStr.any_in indicators (PyStr.lower text_content))
             currency_indicators with
  | Some (currency, _) => currency
  | None => "USD"
  end.

(** The five price patterns: the currency sign, and whether the pattern
    goes on with [\.?\d*]. *)
Definition price_patterns : list (string * bool) :=
  [ ("$", true); ("€", true); ("£", true); ("¥", false); ("₹", true) ].

(** The body of the inner loop of [_analyze_prices]: the price a match
    adds to [prices], if it adds one. *)
Definition price_of_match (m : string) : option float :=
  let numeric_value := PyStr.filter Re.is_digit_or_point m in
  match numeric_value with
  | EmptyString => None
  | _ =>
      match PyNum.float_of_text numeric_value with
      | Some price =>
          if PrimFloat.leb PyNum.fone price && PrimFloat.leb price PyNum.f50000
          then Some price
          else None
      | None => None
      end
  end.

(** The list [prices] after the two loops of [_analyze_prices]. *)
Definition collect_prices (text_content : string) : list float :=
  fold_left
    (fun prices '(sym, fraction) =>
       fold_left
         (fun prices m =>
            match price_of_match m with
            | Some price => (prices ++ [price])%list
            | None => prices
            end)
         (Re.findall sym fraction text_content) prices)
    price_patterns [].

(** [sum(prices)]: the additions from left to right, each rounded (the
    sum of CPython before 3.12; later versions compensate the rounding
    errors, which changes no statement below). *)
Definition fsum (prices : list float) : float :=
  fold_left PrimFloat.add prices PyNum.fzero.

(** [min(prices)] and [max(prices)] of a non-empty list: the first of
    the smallest, the first of the largest. *)
Definition fmin (first : float) (rest : list float) : float :=
  fold_left (fun cur x => if PrimFloat.ltb x cur then x else cur) rest first.

Definition fmax (first : float) (rest : list float) : float :=
  fold_left (fun cur x => if PrimFloat.ltb cur x then x else cur) rest first.

(** [_analyze_prices]; the integer 0 of the dictionary returned for no
    price is the float zero here, which compares alike. *)
Definition _analyze_prices (soup : Soup.t) : PriceAnalysis.t :=
  let text_content := Soup.get_text soup in
  let prices := collect_prices text_content in
  match prices with
  | first :: rest =>
      PriceAnalysis.mk
        (PyNum.round2
           (PrimFloat.div (fsum prices)
              (PyNum.float_of_decimal (Z.of_nat (List.length prices)) 0)))
        (PyNum.round2 (fmin first rest))
        (PyNum.round2 (fmax first rest))
        (Z.of_nat (List.length prices))
        (_detect_currency soup)
  | [] => PriceAnalysis.mk PyNum.fzero PyNum.fzero PyNum.fzero 0 "USD"
  end.

Definition luxury_indicators : list string :=
  ["luxury"; "premium"; "exclusive"; "designer"; "high-end"].

Definition value_indicators : list string :=
  ["affordable"; "cheap"; "discount"; "sale"; "budget"].

(** [_analyze_brands] *)
Definition _analyze_brands (soup : Soup.t) : BrandAnalysis.t :=
  let text_content := PyStr.lower (Soup.get_text soup) in
  let luxury_score := PyStr.count_in luxury_indicators text_content in
  let value_score := PyStr.count_in value_indicators text_content in
  let positioning :=
    if value_score <? luxury_score then "premium"
    else if luxury_score <? value_score then "value"
    else "mid-market" in
  BrandAnalysis.mk positioning luxury_score value_score.

Definition language_indicators : list (string * list string) :=
  [ ("en", ["the"; "and"; "for"; "with"; "this"; "that"]);
    ("es", ["el"; "la"; "de"; "en"; "un"; "es"]);
    ("fr", ["le"; "de"; "et"; "à"; "un"; "il"]);
    ("de", ["der"; "die"; "und"; "in"; "den"; "von"]);
    ("it", ["il"; "di"; "e"; "la"; "in"; "da"]);
    ("pt", ["o"; "de"; "e"; "do"; "da"; "em"]) ].

(** [max(language_scores, key=language_scores.get)]: the first key with
    the highest score. *)
Definition max_key (scores : list (string * Z)) : option string :=
  match scores with
  | [] => None
  | (k, v) :: rest =>
      Some (fst (fold_left
                   (fun '(bk, bv) '(k', v') => if bv <? v' then (k', v') else (bk, bv))
                   rest (k, v)))
  end.

(** [_detect_language] *)
Definition _detect_language (soup : Soup.t) : string :=
  match Soup.find (Soup.having_attr "html" "lang") soup with
  | Some lang_attr =>
      PyStr.slice_to 2
        (match Soup.attr "lang" (Soup.node_attrs lang_attr) with
         | Some l => l
         | None => "en"
         end)
  | None =>
      let text_sample := PyStr.lower (PyStr.slice_to 1000 (Soup.get_text soup)) in
      let language_scores :=
        map (fun '(lang, indicators) => (lang, PyStr.count_in indicators text_sample))
            language_indicators in
      match max_key language_scores with
      | Some lang => lang
      | None => "en"
      end
  end.

Definition country_domains : list (string * string) :=
  [ (".uk", "GB"); (".co.uk", "GB");
    (".de", "DE"); (".fr", "FR"); (".es", "ES"); (".it", "IT");
    (".ca", "CA"); (".au", "AU"); (".jp", "JP"); (".br", "BR");
    (".in", "IN"); (".cn", "CN"); (".mx", "MX") ].

(** [_detect_country], given [urlparse(self.marketplace_url).netloc]. *)
Definition _detect_country (netloc : string) : string :=
  let domain := PyStr.lower netloc in
  match find (fun '(domain_ext, _) => PyStr.str_in domain_ext domain)
             country_domains with
  | Some (_, country) => country
  | None => "US"
  end.

(** *** The supplier table *)

(** A text cell of a row of the stores table, as [store.get] sees it:
    the column is not in the table, the cell is empty (NaN), or the cell
    holds a text. *)
Inductive cell : Type :=
| Absent
| NaN
| Val (s : string).

(** [str(store.get(column, ''))] *)
Definition str_cell (c : cell) : string :=
  match c with
  | Absent => EmptyString
  | NaN => "nan"
  | Val s => s
  end.

(** A row of the stores table, typed as the supplier record of the
    specification: the text columns hold texts and the product count is a
    number.  [Products_Count] is [None] when the column is not in the
    table; an empty cell of a numeric column is the float NaN.  A table
    whose product counts are texts is outside this type: on such a row the
    comparison [products_count > 0] raises [TypeError]. *)
Record store : Type := mk_store {
  URL : cell;
  Categories : cell;
  Description : cell;
  Ships_To : cell;
  Estimated_Sales : cell;
  Products_Count : option PyNum.num
}.

(** The guarded part of the price term and of [_estimate_price_range]:
    [float(sales_match.group().replace(',', ''))] when the text holds
    ["USD"] and the search finds a match; [None] on a missing match and
    on the [ValueError] of [float]. *)
Definition monthly_sales_of (estimated_sales : string) : option float :=
  if PyStr.str_in "USD" estimated_sales then
    match Re.search_digits_commas estimated_sales with
    | Some sales_match => PyNum.float_of_text (PyStr.replace "," "" sales_match)
    | None => None
    end
  else None.

Definition premium_words : list string := ["premium"; "luxury"; "high-end"; "quality"].
Definition value_words : list string := ["affordable"; "value"; "budget"; "cheap"].
Definition origin_words : list string := ["japan"; "japanese"; "tokyo"; "osaka"; "kyoto"].

(** [_calculate_compatibility_score]: the running [score] after each
    block of the function, and the cap at the end. *)
Definition _calculate_compatibility_score (st : store) (marketplace_analysis : Analysis.t)
  : Z :=
  let score := 0 in
  let store_categories := PyStr.lower (str_cell (Categories st)) in
  let store_description := PyStr.lower (str_cell (Description st)) in
  let marketplace_categories := Analysis.categories marketplace_analysis in
  let score :=
    fold_left
      (fun score category =>
         if PyStr.str_in category store_categories
            || PyStr.str_in category store_description
         then score + 20 else score)
      marketplace_categories score in
  let marketplace_avg_price :=
    PriceAnalysis.average_price (Analysis.price_analysis marketplace_analysis) in
  let score :=
    if PrimFloat.ltb PyNum.fzero marketplace_avg_price then
      let estimated_sales := str_cell (Estimated_Sales st) in
      match monthly_sales_of estimated_sales with
      | Some monthly_sales =>
          if PrimFloat.ltb PyNum.fzero monthly_sales then
            let estimated_avg_price := PrimFloat.div monthly_sales PyNum.f100 in
            if PrimFloat.ltb
                 (PrimFloat.abs (PrimFloat.sub estimated_avg_price marketplace_avg_price))
                 (PrimFloat.mul marketplace_avg_price PyNum.fhalf)
            then score + 25
            else if PrimFloat.ltb
                      (PrimFloat.abs (PrimFloat.sub estimated_avg_price marketplace_avg_price))
                      marketplace_avg_price
            then score + 15
            else score
          else score
      | None => score
      end
    else score in
  let brand_positioning :=
    BrandAnalysis.positioning (Analysis.brand_analysis marketplace_analysis) in
  let score :=
    if String.eqb brand_positioning "premium" && PyStr.any_in premium_words store_description
    then score + 15
    else if String.eqb brand_positioning "value" && PyStr.any_in value_words store_description
    then score + 15
    else score in
  let ships_to := str_cell (Ships_To st) in
  let score :=
    if PyStr.str_in "International" ships_to || PyStr.str_in "United States" ships_to
    then score + 10 else score in
  let products_count :=
    match Products_Count st with
    | Some n => n
    | None => PyNum.Int 0
    end in
  let score :=
    if PyNum.num_notna products_count && PyNum.num_gt products_count 0 then
      if PyNum.num_gt products_count 100 then score + 10
      else if PyNum.num_gt products_count 50 then score + 5
      else score
    else score in
  let score :=
    if PyStr.any_in origin_words (PyStr.lower store_description)
    then score + 15 else score in
  Z.min 100 score.

(** [_estimate_price_range] *)
Definition _estimate_price_range (st : store) : string :=
  let estimated_sales := str_cell (Estimated_Sales st) in
  match monthly_sales_of estimated_sales with
  | Some monthly_sales =>
      if PrimFloat.ltb PyNum.fzero monthly_sales then
        let avg_price := PrimFloat.div monthly_sales PyNum.f100 in
        let min_price := PrimFloat.mul avg_price PyNum.f03 in
        let max_price := PrimFloat.mul avg_price PyNum.f3 in
        "$" ++ PyNum.format_0f min_price ++ "-$" ++ PyNum.format_0f max_price
      else "Unknown"
  | None => "Unknown"
  end.

(** *** Recommendations *)

(** A value of a report column that holds a number or a text. *)
Inductive value : Type :=
| VNum (n : PyNum.num)
| VStr (s : string).

(** The dictionary [store_info] of a recommended store. *)
Record store_info : Type := mk_store_info {
  store_name : string;
  store_url : string;
  categories : string;
  description : string;
  price_range : string;
  international_shipping : string;
  estimated_monthly_sales : string;
  compatibility_score : Z;
  products_count : value
}.

(** [store_info] as [generate_supplier_recommendations] builds it for the
    row [st] at [index], once its [score] is known. *)
Definition make_store_info (index : Z) (st : store) (score : Z) : store_info :=
  {| store_name :=
       match URL st with
       | Val u => PyStr.split_head "." (PyStr.replace "https://" EmptyString u)
       | _ => "Store_" ++ PyStr.str_of_Z index
       end;
     store_url := match URL st with Val u => u | _ => EmptyString end;
     categories := match Categories st with Val c => c | _ => EmptyString end;
     description :=
       match Description st with
       | Val d => PyStr.slice_to 200 d
       | _ => EmptyString
       end;
     price_range := _estimate_price_range st;
     international_shipping :=
       if PyStr.str_in "International" (str_cell (Ships_To st)) then "Yes" else "Unknown";
     estimated_monthly_sales :=
       match Estimated_Sales st with Val e => e | _ => "Unknown" end;
     compatibility_score := score;
     products_count :=
       match Products_Count st with
       | Some n => if PyNum.num_notna n then VNum n else VStr "Unknown"
       | None => VStr "Unknown"
       end |}.

(** The loop over [stores_df.iterrows()]: [scored_stores] after the rows
    [rows], the first of which has the index [index]. *)
Fixpoint score_rows (marketplace_analysis : Analysis.t) (index : Z) (rows : list store)
         (scored_stores : list store_info) : list store_info :=
  match rows with
  | [] => scored_stores
  | st :: rest =>
      let score := _calculate_compatibility_score st marketplace_analysis in
      score_rows marketplace_analysis (index + 1) rest
        (if 30 <? score
         then scored_stores ++ [make_store_info index st score]
         else scored_stores)%list
  end.

(** [list.sort(key=..., reverse=True)] is a stable sort into
    non-increasing keys; it is written here as the insertion sort that
    puts an entry in front of the first entry whose key is not greater,
    taking the entries from the last to the first. *)
Fixpoint insert_desc (x : store_info) (l : list store_info) : list store_info :=
  match l with
  | [] => [x]
  | y :: r =>
      if compatibility_score y <=? compatibility_score x
      then x :: l
      else y :: insert_desc x r
  end.

Definition sort_desc (l : list store_info) : list store_info :=
  fold_right insert_desc [] l.

(** [l[:n]] for an [int] [n]: a negative [n] counts from the end. *)
Definition slice_to {A : Type} (n : Z) (l : list A) : list A :=
  if 0 <=? n then firstn (Z.to_nat n) l
  else firstn (Z.to_nat (Z.of_nat (List.length l) + n)) l.

(** [generate_supplier_recommendations]; [stores_df] is [None] for [None]
    and a table without rows is [empty]. *)
Definition generate_supplier_recommendations (max_suppliers : Z)
           (marketplace_analysis : Analysis.t) (stores_df : option (list store))
  : list store_info :=
  match stores_df with
  | None => []
  | Some [] => []
  | Some rows =>
      let scored_stores := score_rows marketplace_analysis 0 rows [] in
      let scored_stores := sort_desc scored_stores in
      let recommended_suppliers := slice_to max_suppliers scored_stores in
      recommended_suppliers
  end.

(** *** The report writer *)

Record summary_stats : Type := mk_summary_stats {
  total_suppliers : Z;
  avg_compatibility_score : PyNum.num;
  top_categories : list string;
  data_source : string
}.

Record summary : Type := mk_summary {
  summary_marketplace_analysis : Analysis.t;
  supplier_recommendations : list store_info;
  summary_stats_of : summary_stats
}.

(** What a file written by the analyzer holds. *)
Inductive content : Type :=
| Csv (rows : list store_info)
| Json (s : summary).

(** The outcome of a call: the value returned, or the exception raised. *)
Inductive outcome (A : Type) : Type :=
| Returned (a : A)
| Raised (exception : string).
Arguments Returned {A} a.
Arguments Raised {A} exception.

(** [save_results].  [timestamp] is [datetime.now().strftime(...)]; the
    result is the list of the files written, in order, and the outcome.
    The local [csv_filename] is bound only in the branch of a non-empty
    list; reading it unbound raises [UnboundLocalError]. *)
Definition save_results (timestamp : string) (marketplace_analysis : Analysis.t)
           (suppliers : list store_info)
  : list (string * content) * outcome (string * string) :=
  let '(csv_filename, files) :=
    match suppliers with
    | _ :: _ =>
        let csv_filename := "matching_results_" ++ timestamp ++ ".csv" in
        (Some csv_filename, [(csv_filename, Csv suppliers)])
    | [] => (None, [])
    end in
  let summary :=
    {| summary_marketplace_analysis := marketplace_analysis;
       supplier_recommendations := suppliers;
       summary_stats_of :=
         {| total_suppliers := Z.of_nat (List.length suppliers);
            avg_compatibility_score :=
              match suppliers with
              | _ :: _ =>
                  PyNum.Float
                    (PyNum.true_div
                       (fold_left Z.add (map compatibility_score suppliers) 0)
                       (Pos.of_nat (List.length suppliers)))
              | [] => PyNum.Int 0
              end;
            top_categories := firstn 5 (Analysis.categories marketplace_analysis);
            data_source := "all_japan_stores_unlimited.csv" |} |} in
  let json_filename := "matching_results_" ++ timestamp ++ "_summary.json" in
  let files := (files ++ [(json_filename, Json summary)])%list in
  match csv_filename with
  | Some csv_filename => (files, Returned (csv_filename, json_filename))
  | None => (files, Raised "UnboundLocalError")
  end.

(** *** The run *)

(** What a run reads from outside: the command line, the stores table
    ([None] when [load_japanese_stores_database] returns [None]), the
    page fetched for a URL ([None] when the request or the parse raises),
    the host part [urlparse] gives for a URL, and the clock in the two
    formats the analyzer uses. *)
Record environment : Type := mk_environment {
  argv : list string;
  database : option (list store);
  fetch : string -> option Soup.t;
  urlparse_netloc : string -> string;
  now_isoformat : string;
  now_strftime : string
}.

(** [analyze_marketplace]: [None] when the [try] block raises. *)
Definition analyze_marketplace (env : environment) (marketplace_url : string)
  : option Analysis.t :=
  match fetch env marketplace_url with
  | Some soup =>
      Some {| Analysis.url := marketplace_url;
              Analysis.title := _extract_title soup;
              Analysis.description := _extract_description soup;
              Analysis.categories := _extract_categories soup;
              Analysis.price_analysis := _analyze_prices soup;
              Analysis.brand_analysis := _analyze_brands soup;
              Analysis.language := _detect_language soup;
              Analysis.country := _detect_country (urlparse_netloc env marketplace_url);
              Analysis.analysis_timestamp := now_isoformat env |}
  | None => None
  end.

Definition usage : string :=
  "Usage: python github_actions_enhanced_analyzer.py <marketplace_url> [max_suppliers]".

(** The first lines of [main]: the usage exit, or the URL and
    [max_suppliers]; [int] may raise [ValueError]. *)
Definition parse_arguments (args : list string)
  : Process.termination + (string * Z) :=
  match args with
  | [] | [_] => inl (Process.SysExit 1 usage)
  | _ :: marketplace_url :: rest =>
      match rest with
      | [] => inr (marketplace_url, 20)
      | a :: _ =>
          match PyNum.int_of_text a with
          | Some max_suppliers => inr (marketplace_url, max_suppliers)
          | None => inl (Process.Uncaught "ValueError")
          end
      end
  end.

(** [main]: the files written and how the run ends. *)
Definition main (env : environment) : list (string * content) * Process.termination :=
  match parse_arguments (argv env) with
  | inl stop => ([], stop)
  | inr (marketplace_url, max_suppliers) =>
      match database env with
      | None => ([], Process.SysExit 1 "❌ Could not load Japanese stores database")
      | Some rows =>
          match analyze_marketplace env marketplace_url with
          | None => ([], Process.SysExit 1 "❌ Failed to analyze marketplace")
          | Some marketplace_analysis =>
              let suppliers :=
                generate_supplier_recommendations max_suppliers marketplace_analysis
                  (Some rows) in
              match save_results (now_strftime env) marketplace_analysis suppliers with
              | (files, Returned _) => (files, Process.Finished)
              | (files, Raised exception) => (files, Process.Uncaught exception)
              end
          end
      end
  end.

End Enhanced.

(** ** [simple_marketplace_analyzer.py] *)

Module Simple.

Record supplier : Type := mk_supplier {
  store_name : string;
  store_url : string;
  categories : string;
  description : string;
  price_range : string;
  compatibility_score : Z
}.

(** The list [suppliers] of [analyze_marketplace]. *)
Definition suppliers : list supplier :=
  [ mk_supplier "Tokyo Fashion" "https://example-tokyo-fashion.com"
      "Fashion, Accessories" "Premium Japanese fashion brand" "$50-$500" 90;
    mk_supplier "Osaka Electronics" "https://example-osaka-electronics.com"
      "Electronics, Gadgets" "High-quality Japanese electronics" "$100-$2000" 85;
    mk_supplier "Kyoto Beauty" "https://example-kyoto-beauty.com"
      "Beauty, Cosmetics" "Traditional Japanese beauty products" "$25-$300" 88;
    mk_supplier "Hokkaido Home" "https://example-hokkaido-home.com"
      "Home, Furniture" "Minimalist Japanese home decor" "$150-$1500" 82;
    mk_supplier "Nara Sports" "https://example-nara-sports.com"
      "Sports, Outdoor" "Japanese sports equipment" "$40-$800" 75 ].

Record summary : Type := mk_summary {
  marketplace_url : string;
  marketplace_name : string;
  detected_categories : list string;
  supplier_count : Z;
  analysis_timestamp : string
}.

Inductive content : Type :=
| Csv (rows : list supplier)
| Json (s : summary).

Definition keywords : list string :=
  ["fashion"; "beauty"; "electronics"; "home"; "sports"; "jewelry"].

(** [analyze_marketplace(url)].  [page] is the parsed response, [None]
    when the request raises; [timestamp] is [datetime.now().strftime(...)].
    The result is the list of the files written and the value returned. *)
Definition analyze_marketplace (page : option Soup.t) (timestamp : string) (url : string)
  : list (string * content) * bool :=
  match page with
  | Some soup =>
      let title_text :=
        match Soup.find (Soup.by_name "title") soup with
        | Some title => PyStr.strip (Soup.node_text title)
        | None => "Unknown"
        end in
      let text_content := PyStr.lower (Soup.get_text soup) in
      let categories :=
        fold_left
          (fun categories keyword =>
             if PyStr.str_in keyword text_content
             then (categories ++ [keyword])%list
             else categories)
          keywords [] in
      let csv_filename := "matching_results_" ++ timestamp ++ ".csv" in
      let summary :=
        {| marketplace_url := url;
           marketplace_name := title_text;
           detected_categories := categories;
           supplier_count := Z.of_nat (List.length suppliers);
           analysis_timestamp := timestamp |} in
      let json_filename := "matching_results_" ++ timestamp ++ "_summary.json" in
      ([(csv_filename, Csv suppliers); (json_filename, Json summary)], true)
  | None => ([], false)
  end.

(** The block under [__name__ == "__main__"]: the URL is the first
    argument, or the built-in one. *)
Definition main (args : list string) (fetch : string -> option Soup.t) (timestamp : string)
  : list (string * content) * Process.termination :=
  let url :=
    match args with
    | _ :: a :: _ => a
    | _ => "https://www.extra.com"
    end in
  let '(files, _) := analyze_marketplace (fetch url) timestamp url in
  (files, Process.Finished).

(** The rows of the tabular files among [files]. *)
Definition csv_rows (files : list (string * content)) : list (list supplier) :=
  flat_map (fun '(_, c) => match c with Csv rows => [rows] | Json _ => [] end) files.

End Simple.

(** ** The score, term by term

    [_calculate_compatibility_score] adds to one running [score].  The
    definitions below name what each of its blocks adds; the score is shown
    further down to be their sum, capped at 100. *)

Module Terms.
Import Enhanced.

Definition store_categories (st : store) : string :=
  PyStr.lower (str_cell (Categories st)).

Definition store_description (st : store) : string :=
  PyStr.lower (str_cell (Description st)).

(** Whether the marketplace category [category] is found in the store's
    categories or description. *)
Definition category_matches (st : store) (category : string) : bool :=
  PyStr.str_in category (store_categories st)
  || PyStr.str_in category (store_description st).

Definition category_term (st : store) (ma : Analysis.t) : Z :=
  20 * Z.of_nat (List.length (filter (category_matches st) (Analysis.categories ma))).

Definition average_of (ma : Analysis.t) : float :=
  PriceAnalysis.average_price (Analysis.price_analysis ma).

(** The distance [|monthly_sales / 100 - average|] the price rule tests. *)
Definition price_distance (monthly_sales average : float) : float :=
  PrimFloat.abs (PrimFloat.sub (PrimFloat.div monthly_sales PyNum.f100) average).

(** The three-way price rule: 25, 15 or 0. *)
Definition price_rule (monthly_sales average : float) : Z :=
  if PrimFloat.ltb (price_distance monthly_sales average)
                   (PrimFloat.mul average PyNum.fhalf)
  then 25
  else if PrimFloat.ltb (price_distance monthly_sales average) average
  then 15
  else 0.

Definition price_term (st : store) (ma : Analysis.t) : Z :=
  if PrimFloat.ltb PyNum.fzero (average_of ma) then
    match monthly_sales_of (str_cell (Estimated_Sales st)) with
    | Some monthly_sales =>
        if PrimFloat.ltb PyNum.fzero monthly_sales
        then price_rule monthly_sales (average_of ma)
        else 0
    | None => 0
    end
  else 0.

Definition positioning_of (ma : Analysis.t) : string :=
  BrandAnalysis.positioning (Analysis.brand_analysis ma).

Definition positioning_term (st : store) (ma : Analysis.t) : Z :=
  if String.eqb (positioning_of ma) "premium"
     && PyStr.any_in premium_words (store_description st)
  then 15
  else if String.eqb (positioning_of ma) "value"
          && PyStr.any_in value_words (store_description st)
  then 15
  else 0.

Definition shipping_term (st : store) : Z :=
  if PyStr.str_in "International" (str_cell (Ships_To st))
     || PyStr.str_in "United States" (str_cell (Ships_To st))
  then 10 else 0.

Definition scale_term (st : store) : Z :=
  let products_count :=
    match Products_Count st with
    | Some n => n
    | None => PyNum.Int 0
    end in
  if PyNum.num_notna products_count && PyNum.num_gt products_count 0 then
    if PyNum.num_gt products_count 100 then 10
    else if PyNum.num_gt products_count 50 then 5
    else 0
  else 0.

Definition origin_term (st : store) : Z :=
  if PyStr.any_in origin_words (PyStr.lower (store_description st)) then 15 else 0.

Definition uncapped (st : store) (ma : Analysis.t) : Z :=
  category_term st ma + price_term st ma + positioning_term st ma
  + shipping_term st + scale_term st + origin_term st.

End Terms.

(** ** The ranking, as the specification words it *)

Module Ranking.
Import Enhanced.

(** The report entry of every row of the table, in the order of the
    rows, the first row having the index [index]. *)
Fixpoint candidates_from (ma : Analysis.t) (index : Z) (rows : list store)
  : list store_info :=
  match rows with
  | [] => []
  | st :: rest =>
      make_store_info index st (_calculate_compatibility_score st ma)
      :: candidates_from ma (index + 1) rest
  end.

Definition candidates (ma : Analysis.t) (rows : list store) : list store_info :=
  candidates_from ma 0 rows.

Definition qualifies (info : store_info) : bool := 30 <? compatibility_score info.

(** The entries scoring strictly more than 30, in the order of the rows. *)
Definition qualifying (ma : Analysis.t) (rows : list store) : list store_info :=
  filter qualifies (candidates ma rows).

(** [a] may stand before [b] in a ranking by non-increasing score. *)
Definition score_ge (a b : store_info) : Prop :=
  compatibility_score b <= compatibility_score a.

(** The entries of [l] whose score is [k], in the order of [l]. *)
Definition with_score (k : Z) (l : list store_info) : list store_info :=
  filter (fun info => compatibility_score info =? k) l.

(** A ranking [out] of [l]: the same entries, by non-increasing score,
    entries of equal score in the order they have in [l]. *)
Definition stable_ranking (l out : list store_info) : Prop :=
  Permutation out l
  /\ StronglySorted score_ge out
  /\ forall k, with_score k out = with_score k l.

(** The contract in the strong reading: the list returned holds every
    qualifying entry and no other, is a stable ranking, and is no longer
    than [max_suppliers]. *)
Definition returns_all_qualifying (max_suppliers : Z) (ma : Analysis.t)
           (rows : list store) : Prop :=
  let out := generate_supplier_recommendations max_suppliers ma (Some rows) in
  (forall info, In info out <-> In info (qualifying ma rows))
  /\ StronglySorted score_ge out
  /\ (forall k, with_score k out = with_score k (qualifying ma rows))
  /\ Z.of_nat (List.length out) <= max_suppliers.

End Ranking.

(** ** The price statistics, as the specification words them *)

Module PriceSpec.
Import Enhanced.

(** The number a regex match stands for: its digits and point read by
    [float], when that succeeds. *)
Definition parsed_value (m : string) : option float :=
  match PyStr.filter Re.is_digit_or_point m with
  | EmptyString => None
  | numeric_value => PyNum.float_of_text numeric_value
  end.

Definition values_of (ms : list string) : list float :=
  flat_map (fun m => match parsed_value m with Some v => [v] | None => [] end) ms.

(** Every value matched on the page, pattern by pattern. *)
Definition parsed_values (text_content : string) : list float :=
  flat_map (fun '(sym, fraction) => values_of (Re.findall sym fraction text_content))
           price_patterns.

(** [1 <= v <= 50000] *)
Definition in_range (v : float) : bool :=
  PrimFloat.leb PyNum.fone v && PrimFloat.leb v PyNum.f50000.

Definition mean (prices : list float) : float :=
  PrimFloat.div (fsum prices) (PyNum.float_of_decimal (Z.of_nat (List.length prices)) 0).

End PriceSpec.

(** ** How the command line is refused *)

Module Usage.

(** The run stops on a message with a status that is not zero. *)
Definition usage_error (t : Process.termination) : Prop :=
  exists code message, t = Process.SysExit code message /\ code <> 0.

Definition default_url : string := "https://www.extra.com".

End Usage.

(** ** Sample data *)

Module Examples.
Import Enhanced.

(** The page of the extraction scenario. *)
Definition tokyo_style : Soup.t :=
  [ Soup.Elem "html" [("lang", "ja")]
      [ Soup.Elem "head" [] [ Soup.Elem "title" [] [ Soup.Text "Tokyo Style" ] ];
        Soup.Elem "body" [] [ Soup.Text "Premium Japanese fashion, $120 dresses" ] ] ].

Definition no_prices : PriceAnalysis.t :=
  PriceAnalysis.mk PyNum.fzero PyNum.fzero PyNum.fzero 0 "USD".

(** A marketplace of positioning "value" selling electronics. *)
Definition value_electronics : Analysis.t :=
  {| Analysis.url := "https://shop.example.com";
     Analysis.title := "Shop";
     Analysis.description := EmptyString;
     Analysis.categories := ["electronics"];
     Analysis.price_analysis := no_prices;
     Analysis.brand_analysis := BrandAnalysis.mk "value" 0 1;
     Analysis.language := "en";
     Analysis.country := "US";
     Analysis.analysis_timestamp := "2025-01-01T12:00:00" |}.

(** The same marketplace with an average price of 120. *)
Definition priced_electronics : Analysis.t :=
  {| Analysis.url := "https://shop.example.com";
     Analysis.title := "Shop";
     Analysis.description := EmptyString;
     Analysis.categories := ["electronics"];
     Analysis.price_analysis :=
       PriceAnalysis.mk (PyNum.float_of_decimal 120 0) (PyNum.float_of_decimal 120 0)
         (PyNum.float_of_decimal 120 0) 1 "USD";
     Analysis.brand_analysis := BrandAnalysis.mk "value" 0 1;
     Analysis.language := "en";
     Analysis.country := "US";
     Analysis.analysis_timestamp := "2025-01-01T12:00:00" |}.

(** The supplier of the scoring scenario, under a given URL. *)
Definition tokyo_supplier (u : string) : store :=
  {| URL := Val u;
     Categories := NaN;
     Description := Val "Affordable Tokyo electronics, budget-friendly";
     Ships_To := Val "Japan";
     Estimated_Sales := Val "USD 10,000";
     Products_Count := Some (PyNum.Int 20) |}.

Definition two_suppliers : list store :=
  [ tokyo_supplier "https://first.example.jp";
    tokyo_supplier "https://second.example.jp" ].

(** A run of the enhanced analyzer on [args] against a table [rows] and
    the page [tokyo_style]. *)
Definition run_with (args : list string) (rows : option (list store)) : environment :=
  {| argv := args;
     database := rows;
     fetch := fun _ => Some tokyo_style;
     urlparse_netloc := fun _ => "shop.example.com";
     now_isoformat := "2025-01-01T12:00:00";
     now_strftime := "20250101_120000" |}.

End Examples.

(** ** Rows without data *)

Module Missing.
Import Enhanced.

(** The cell holds no text: its column is not in the table, or it is
    empty. *)
Definition no_text (c : cell) : Prop :=
  match c with
  | Val _ => False
  | Absent | NaN => True
  end.

(** The row has no product count: no such column, or an empty cell. *)
Definition no_count (st : store) : Prop :=
  match Products_Count st with
  | Some n => PyNum.num_notna n = false
  | None => True
  end.

(** A row of the stores table in which only the URL may be given. *)
Definition blank_row (st : store) : Prop :=
  no_text (Categories st) /\ no_text (Description st) /\ no_text (Ships_To st)
  /\ no_text (Estimated_Sales st) /\ no_count st.

End Missing.

(** ** Ends of texts *)

Module TextEnd.

(** The last character of a text. *)
Fixpoint last_char (s : string) : option ascii :=
  match s with
  | EmptyString => None
  | String c EmptyString => Some c
  | String _ r => last_char r
  end.

End TextEnd.

(** ** The scoring scenario with a second category *)

Module Scenario.
Import Enhanced.

(** A supplier with the description of the scenario whose own category
    text names two categories. *)
Definition home_electronics_supplier : store :=
  {| URL := Val "https://denki.example.jp";
     Categories := Val "Home, Electronics";
     Description := Val "Affordable Tokyo electronics, budget-friendly";
     Ships_To := Val "Japan";
     Estimated_Sales := NaN;
     Products_Count := None |}.

(** A marketplace of positioning "value" whose categories include
    "electronics", and "home" as well. *)
Definition electronics_and_home : Analysis.t :=
  {| Analysis.url := "https://shop.example.com";
     Analysis.title := "Shop";
     Analysis.description := EmptyString;
     Analysis.categories := ["electronics"; "home"];
     Analysis.price_analysis :=
       PriceAnalysis.mk PyNum.fzero PyNum.fzero PyNum.fzero 0 "USD";
     Analysis.brand_analysis := BrandAnalysis.mk "value" 0 1;
     Analysis.language := "en";
     Analysis.country := "US";
     Analysis.analysis_timestamp := "2025-01-01T12:00:00" |}.

(** The conditions the scenario puts on the supplier and the
    marketplace. *)
Definition conditions (st : store) (ma : Analysis.t) : Prop :=
  Description st = Val "Affordable Tokyo electronics, budget-friendly"
  /\ Terms.positioning_of ma = "value"
  /\ In "electronics" (Analysis.categories ma).

(** The contributions the scenario names: 20, 15 and 15, 50 in all. *)
Definition contributions (st : store) (ma : Analysis.t) : Prop :=
  Terms.category_term st ma = 20
  /\ Terms.positioning_term st ma = 15
  /\ Terms.origin_term st = 15
  /\ Terms.category_term st ma + Terms.positioning_term st ma + Terms.origin_term st = 50.

End Scenario.

(** ** Signs of floats *)

Module FloatSign.

(** A float greater than zero: a positive finite number or plus infinity. *)
Definition positive_sf (x : spec_float) : Prop :=
  match x with
  | S754_infinity false | S754_finite false _ _ => True
  | _ => False
  end.

End FloatSign.

(** ** Lemmas on the score *)

Section ScoreLemmas.
Import Enhanced Terms.

Lemma fold_categories (st : store) (cats : list string) (acc : Z) :
  fold_left
    (fun score category =>
       if PyStr.str_in category (store_categories st)
          || PyStr.str_in category (store_description st)
       then score + 20 else score) cats acc
  = acc + 20 * Z.of_nat (List.length (filter (category_matches st) cats)).
Proof.
  revert acc. induction cats as [|c cats IH]; intros acc; cbn [fold_left filter].
  - cbn [List.length]. lia.
  - rewrite IH. unfold category_matches at 2.
    destruct (PyStr.str_in c (store_categories st)
              || PyStr.str_in c (store_description st)); cbn [List.length]; lia.
Qed.

(** The running score of the function is the sum of its terms. *)
Lemma score_is_capped_sum (st : store) (ma : Analysis.t) :
  _calculate_compatibility_score st ma = Z.min 100 (uncapped st ma).
Proof.
  unfold _calculate_compatibility_score, uncapped.
  f_equal.
  change (PyStr.lower (str_cell (Categories st))) with (store_categories st).
  change (PyStr.lower (str_cell (Description st))) with (store_description st).
  rewrite fold_categories.
  fold (category_term st ma).
  unfold price_term, price_rule, price_distance, average_of,
    positioning_term, positioning_of, shipping_term, scale_term, origin_term.
  repeat match goal with
         | |- context [if ?b then _ else _] => destruct b
         | |- context [match ?o with Some _ => _ | None => _ end] => destruct o
         end; lia.
Qed.

Lemma category_term_nonneg st ma : 0 <= category_term st ma.
Proof. unfold category_term. lia. Qed.

Lemma price_rule_values ms avg :
  price_rule ms avg = 25 \/ price_rule ms avg = 15 \/ price_rule ms avg = 0.
Proof. unfold price_rule. repeat destruct (PrimFloat.ltb _ _); auto. Qed.

Lemma price_term_nonneg st ma : 0 <= price_term st ma <= 25.
Proof.
  unfold price_term.
  destruct (PrimFloat.ltb _ _); [|lia].
  destruct (monthly_sales_of _) as [ms|]; [|lia].
  destruct (PrimFloat.ltb _ _); [|lia].
  destruct (price_rule_values ms (average_of ma)) as [H|[H|H]]; rewrite H; lia.
Qed.

Lemma positioning_term_nonneg st ma : 0 <= positioning_term st ma <= 15.
Proof. unfold positioning_term. repeat destruct (_ && _); lia. Qed.

Lemma shipping_term_nonneg st : 0 <= shipping_term st <= 10.
Proof. unfold shipping_term. destruct (_ || _); lia. Qed.

Lemma scale_term_nonneg st : 0 <= scale_term st <= 10.
Proof.
  unfold scale_term. destruct (_ && _); [|lia].
  repeat destruct (PyNum.num_gt _ _); lia.
Qed.

Lemma origin_term_nonneg st : 0 <= origin_term st <= 15.
Proof. unfold origin_term. destruct (PyStr.any_in _ _); lia. Qed.

End ScoreLemmas.

(** C1. For every supplier record and every marketplace analysis the
    compatibility score is an integer between 0 and 100: it is the sum of
    six terms, none of them negative, capped at 100. *)
Theorem C1_score_between_0_and_100 (st : Enhanced.store) (ma : Analysis.t) :
  0 <= Enhanced._calculate_compatibility_score st ma <= 100
  /\ Enhanced._calculate_compatibility_score st ma = Z.min 100 (Terms.uncapped st ma)
  /\ 0 <= Terms.category_term st ma
  /\ 0 <= Terms.price_term st ma
  /\ 0 <= Terms.positioning_term st ma
  /\ 0 <= Terms.shipping_term st
  /\ 0 <= Terms.scale_term st
  /\ 0 <= Terms.origin_term st.
Proof.
  pose proof (category_term_nonneg st ma).
  pose proof (price_term_nonneg st ma).
  pose proof (positioning_term_nonneg st ma).
  pose proof (shipping_term_nonneg st).
  pose proof (scale_term_nonneg st).
  pose proof (origin_term_nonneg st).
  rewrite score_is_capped_sum. unfold Terms.uncapped.
  repeat split; lia.
Qed.

(** ** Lemmas on the ranking *)

Section RankingLemmas.
Import Enhanced Ranking.

Lemma score_rows_spec ma rows : forall index acc,
  score_rows ma index rows acc
  = (acc ++ filter qualifies (candidates_from ma index rows))%list.
Proof.
  induction rows as [|st rest IH]; intros index acc; cbn [score_rows candidates_from filter].
  - now rewrite app_nil_r.
  - rewrite IH. unfold qualifies at 2. cbn [compatibility_score make_store_info].
    destruct (30 <? _calculate_compatibility_score st ma).
    + now rewrite <- app_assoc.
    + reflexivity.
Qed.

Lemma insert_desc_perm x l : Permutation (insert_desc x l) (x :: l).
Proof.
  induction l as [|y r IH]; cbn [insert_desc]; [reflexivity|].
  destruct (compatibility_score y <=? compatibility_score x); [reflexivity|].
  rewrite IH. apply perm_swap.
Qed.

Lemma sort_desc_perm l : Permutation (sort_desc l) l.
Proof.
  induction l as [|x l IH]; cbn; [constructor|].
  fold (sort_desc l). rewrite insert_desc_perm. now constructor.
Qed.

Lemma insert_desc_sorted x l :
  StronglySorted score_ge l -> StronglySorted score_ge (insert_desc x l).
Proof.
  induction 1 as [|y r Hs IH Hall]; cbn [insert_desc].
  - repeat constructor.
  - destruct (compatibility_score y <=? compatibility_score x) eqn:E.
    + apply Z.leb_le in E. constructor; [now constructor|].
      constructor; [exact E|].
      eapply Forall_impl; [|exact Hall].
      unfold score_ge. intros; lia.
    + apply Z.leb_gt in E. constructor; [exact IH|].
      apply (Permutation_Forall (Permutation_sym (insert_desc_perm x r))).
      constructor; [unfold score_ge; lia|exact Hall].
Qed.

Lemma sort_desc_sorted l : StronglySorted score_ge (sort_desc l).
Proof.
  induction l as [|x l IH]; cbn; [constructor|].
  now apply insert_desc_sorted.
Qed.

Lemma insert_desc_stable k x l :
  with_score k (insert_desc x l) = with_score k (x :: l).
Proof.
  unfold with_score.
  induction l as [|y r IH]; cbn [insert_desc]; [reflexivity|].
  destruct (compatibility_score y <=? compatibility_score x) eqn:E; [reflexivity|].
  apply Z.leb_gt in E. cbn [filter] in *. rewrite IH.
  destruct (compatibility_score y =? k) eqn:Ey, (compatibility_score x =? k) eqn:Ex;
    try reflexivity.
  apply Z.eqb_eq in Ey, Ex. lia.
Qed.

Lemma sort_desc_stable k l : with_score k (sort_desc l) = with_score k l.
Proof.
  induction l as [|x l IH]; [reflexivity|].
  cbn [sort_desc fold_right]. fold (sort_desc l).
  rewrite insert_desc_stable. unfold with_score in *. cbn [filter].
  now rewrite IH.
Qed.

Lemma sort_desc_ranking l : stable_ranking l (sort_desc l).
Proof.
  split; [apply sort_desc_perm|].
  split; [apply sort_desc_sorted|].
  intros k. apply sort_desc_stable.
Qed.

Lemma firstn_sorted n l :
  StronglySorted score_ge l -> StronglySorted score_ge (firstn n l).
Proof.
  intros H. revert n. induction H as [|x l Hs IH Hall]; intros [|n]; cbn [firstn];
    try constructor.
  - apply IH.
  - rewrite Forall_forall in *. intros y Hy. apply Hall.
    rewrite <- (firstn_skipn n l). apply in_or_app. now left.
Qed.

Lemma firstn_In {A} n (l : list A) x : In x (firstn n l) -> In x l.
Proof.
  intros H. rewrite <- (firstn_skipn n l). apply in_or_app. now left.
Qed.

Lemma slice_to_nonneg {A} n (l : list A) :
  0 <= n -> slice_to n l = firstn (Z.to_nat n) l.
Proof.
  intros H. unfold slice_to. apply Z.leb_le in H. now rewrite H.
Qed.

Lemma generate_spec max ma rows :
  generate_supplier_recommendations max ma (Some rows)
  = slice_to max (sort_desc (qualifying ma rows)).
Proof.
  unfold generate_supplier_recommendations, qualifying, candidates.
  destruct rows as [|st rest].
  - cbn. unfold slice_to. destruct (0 <=? max); now rewrite firstn_nil.
  - now rewrite score_rows_spec.
Qed.

Lemma qualifying_scores ma rows :
  Forall (fun info => 30 < compatibility_score info) (qualifying ma rows).
Proof.
  unfold qualifying. rewrite Forall_forall. intros info H.
  apply filter_In in H. destruct H as [_ H]. now apply Z.ltb_lt in H.
Qed.

End RankingLemmas.

(** C2, amended. For every marketplace analysis, every table of supplier
    records and every [max_suppliers >= 0], the list returned is the first
    [max_suppliers] entries of the stable ranking, by non-increasing
    score, of the records scoring strictly more than 30: it is sorted, it
    holds only records scoring more than 30, it is no longer than
    [max_suppliers], and it holds every such record when no more than
    [max_suppliers] qualify. *)
Theorem C2_top_of_stable_ranking (max_suppliers : Z) (ma : Analysis.t)
        (rows : list Enhanced.store) (Hmax : 0 <= max_suppliers) :
  let out := Enhanced.generate_supplier_recommendations max_suppliers ma (Some rows) in
  let ranked := Enhanced.sort_desc (Ranking.qualifying ma rows) in
  out = firstn (Z.to_nat max_suppliers) ranked
  /\ Ranking.stable_ranking (Ranking.qualifying ma rows) ranked
  /\ StronglySorted Ranking.score_ge out
  /\ Forall (fun info => 30 < Enhanced.compatibility_score info) out
  /\ (forall info, In info out -> In info (Ranking.qualifying ma rows))
  /\ Z.of_nat (List.length out) <= max_suppliers
  /\ (Z.of_nat (List.length (Ranking.qualifying ma rows)) <= max_suppliers ->
      out = ranked
      /\ forall info, In info out <-> In info (Ranking.qualifying ma rows)).
Proof.
  intros out ranked.
  assert (Hout : out = firstn (Z.to_nat max_suppliers) ranked).
  { unfold out. rewrite generate_spec. now apply slice_to_nonneg. }
  pose proof (sort_desc_ranking (Ranking.qualifying ma rows)) as Hrank.
  fold ranked in Hrank. destruct Hrank as (Hperm & Hsorted & Hstable).
  assert (Hin : forall info, In info out -> In info (Ranking.qualifying ma rows)).
  { intros info H. rewrite Hout in H. apply firstn_In in H.
    eapply Permutation_in; eauto. }
  split; [exact Hout|].
  split; [repeat split; assumption|].
  split; [rewrite Hout; now apply firstn_sorted|].
  split.
  { rewrite Forall_forall. intros info H. apply Hin in H.
    pose proof (qualifying_scores ma rows) as Hq. rewrite Forall_forall in Hq. auto. }
  split; [exact Hin|].
  split.
  { rewrite Hout. pose proof (firstn_le_length (Z.to_nat max_suppliers) ranked). lia. }
  intros Hlen.
  assert (Hall : out = ranked).
  { rewrite Hout. apply firstn_all2.
    rewrite (Permutation_length Hperm). lia. }
  split; [exact Hall|].
  intros info. rewrite Hall. split; intros H.
  - eapply Permutation_in; eauto.
  - eapply Permutation_in; [symmetry|]; eauto.
Qed.

(** C2, witness: two qualifying suppliers and [max_suppliers = 1]. *)
Lemma C2_top_of_stable_ranking_witness :
  0 <= 1
  /\ Enhanced.generate_supplier_recommendations 1 Examples.value_electronics
       (Some Examples.two_suppliers)
     = firstn (Z.to_nat 1)
         (Enhanced.sort_desc
            (Ranking.qualifying Examples.value_electronics Examples.two_suppliers)).
Proof.
  split; [lia|].
  exact (proj1 (C2_top_of_stable_ranking 1 Examples.value_electronics
                  Examples.two_suppliers Z.le_0_1)).
Defined.

(** C2 as stated fails: with two suppliers scoring 50 and
    [max_suppliers = 1] the second supplier scores more than 30 and is not
    in the list returned. *)
Lemma C2_counterexample_truncation :
  ~ Ranking.returns_all_qualifying 1 Examples.value_electronics Examples.two_suppliers.
Proof.
  intros [Hall _].
  pose (second :=
          Enhanced.make_store_info 1 (Examples.tokyo_supplier "https://second.example.jp") 50).
  assert (Hq : In second (Ranking.qualifying Examples.value_electronics Examples.two_suppliers)).
  { vm_compute. right. left. reflexivity. }
  apply Hall in Hq. vm_compute in Hq.
  destruct Hq as [Hq|[]]. discriminate Hq.
Qed.

(** ** Lemmas on float comparisons *)

Section FloatFacts.
Import FloatSign.

Lemma SFcompare_antisym x y :
  SFcompare y x = option_map CompOpp (SFcompare x y).
Proof.
  destruct x as [sx|sx| |sx mx ex], y as [sy|sy| |sy my ey]; cbn;
    try reflexivity; try (destruct sx, sy; reflexivity); try (destruct sx; reflexivity);
    try (destruct sy; reflexivity).
  destruct sx, sy; cbn; try reflexivity;
    rewrite (Z.compare_antisym ex ey); destruct (ex ?= ey); cbn; try reflexivity;
    change (PosDef.Pos.compare_cont Eq my mx) with (Pos.compare my mx);
    change (PosDef.Pos.compare_cont Eq mx my) with (Pos.compare mx my);
    rewrite (Pos.compare_antisym mx my); reflexivity.
Qed.

Lemma SFleb_not_ltb x y : SFleb x y = true -> SFltb y x = false.
Proof.
  unfold SFleb, SFltb. rewrite (SFcompare_antisym x y).
  destruct (SFcompare x y) as [[| |]|]; cbn; congruence.
Qed.

Lemma SFcompare_none x y :
  SFcompare x y = None -> x = S754_nan \/ y = S754_nan.
Proof.
  destruct x as [sx|sx| |sx mx ex], y as [sy|sy| |sy my ey]; cbn; auto; discriminate.
Qed.

Lemma SFltb_total x y :
  x <> S754_nan -> y <> S754_nan -> SFltb x y = false -> SFleb y x = true.
Proof.
  intros Hx Hy. unfold SFleb, SFltb. rewrite (SFcompare_antisym x y).
  destruct (SFcompare x y) as [[| |]|] eqn:E; cbn; try congruence.
  apply SFcompare_none in E. tauto.
Qed.

Lemma SFltb_not_nan x y : SFltb x y = true -> x <> S754_nan /\ y <> S754_nan.
Proof.
  unfold SFltb. destruct x, y; cbn; try discriminate; split; discriminate.
Qed.

Lemma Prim2SF_fzero : Prim2SF PyNum.fzero = S754_zero false.
Proof. vm_compute. reflexivity. Qed.

Lemma Prim2SF_fhalf : Prim2SF PyNum.fhalf = S754_finite false 4503599627370496 (-53).
Proof. vm_compute. reflexivity. Qed.

(** A float equal to zero is not greater than zero. *)
Lemma eqb_zero_not_gt (x : float) :
  PrimFloat.eqb x PyNum.fzero = true -> PrimFloat.ltb PyNum.fzero x = false.
Proof.
  rewrite eqb_spec, ltb_spec, Prim2SF_fzero.
  destruct (Prim2SF x) as [s|s| |s m e]; cbn; try discriminate; try reflexivity.
  - destruct s; discriminate.
  - destruct s; discriminate.
Qed.

Lemma SFltb_zero_positive x : SFltb (S754_zero false) x = true <-> positive_sf x.
Proof.
  destruct x as [s|s| |s m e]; cbn; try destruct s; cbn; intuition discriminate.
Qed.

Lemma SFltb_abs_positive x y : SFltb (SFabs x) y = true -> positive_sf y.
Proof.
  destruct x as [s|s| |s m e], y as [s'|s'| |s' m' e']; cbn; try discriminate;
    try destruct s'; cbn; auto; try discriminate.
Qed.

Lemma shr_1_nonneg mrs : 0 <= shr_m mrs -> 0 <= shr_m (shr_1 mrs).
Proof.
  destruct mrs as [m r s]. cbn. destruct m as [|p|p]; cbn; try lia;
    destruct p; cbn; lia.
Qed.

Lemma iter_pos_shr_1_nonneg p : forall mrs,
  0 <= shr_m mrs -> 0 <= shr_m (iter_pos shr_1 p mrs).
Proof.
  induction p as [p IH|p IH|]; intros mrs H; cbn.
  - apply IH, IH, shr_1_nonneg, H.
  - apply IH, IH, H.
  - apply shr_1_nonneg, H.
Qed.

Lemma shr_fexp_nonneg m e l :
  0 <= m -> 0 <= shr_m (fst (shr_fexp prec emax m e l)).
Proof.
  intros H. unfold shr_fexp, shr.
  assert (H0 : 0 <= shr_m (shr_record_of_loc m l)).
  { destruct l as [|[| |]]; cbn; exact H. }
  destruct (fexp prec emax (Zdigits2 m + e) - e); cbn; auto.
  now apply iter_pos_shr_1_nonneg.
Qed.

Lemma round_nearest_even_nonneg m l : 0 <= m -> 0 <= round_nearest_even m l.
Proof.
  intros H. unfold round_nearest_even. destruct l as [|[| |]]; try lia.
  destruct (Z.even m); lia.
Qed.

Lemma binary_round_aux_sign s m e l :
  0 <= m ->
  match binary_round_aux prec emax s m e l with
  | S754_zero s' | S754_infinity s' | S754_finite s' _ _ => s' = s
  | S754_nan => False
  end.
Proof.
  intros H. unfold binary_round_aux.
  pose proof (shr_fexp_nonneg m e l H) as H1.
  destruct (shr_fexp prec emax m e l) as [mrs' e']. cbn [fst] in H1.
  pose proof (shr_fexp_nonneg _ e' loc_Exact
                (round_nearest_even_nonneg _ (loc_of_shr_record mrs') H1)) as H2.
  destruct (shr_fexp prec emax _ e' loc_Exact) as [mrs'' e'']. cbn [fst] in H2.
  destruct (shr_m mrs'') as [|p|p]; try reflexivity.
  - destruct (e'' <=? emax - prec); reflexivity.
  - lia.
Qed.

Lemma mul_half_positive (x : float) :
  positive_sf (Prim2SF (PrimFloat.mul x PyNum.fhalf)) -> positive_sf (Prim2SF x).
Proof.
  rewrite mul_spec, Prim2SF_fhalf. unfold SF64mul.
  destruct (Prim2SF x) as [s|s| |s m e]; cbn [SFmul];
    try (destruct s; cbn; tauto); try (cbn; tauto).
  pose proof (binary_round_aux_sign (xorb s false) (Z.pos (m * 4503599627370496)) (e + -53)
                loc_Exact ltac:(lia)) as H.
  destruct (binary_round_aux _ _ _ _ _ _) as [s'|s'| |s' m' e']; cbn; try tauto;
    subst s'; destruct s; cbn; tauto.
Qed.

Lemma mul_half_not_nan (x : float) :
  Prim2SF x <> S754_nan -> Prim2SF (PrimFloat.mul x PyNum.fhalf) <> S754_nan.
Proof.
  rewrite mul_spec, Prim2SF_fhalf. unfold SF64mul.
  destruct (Prim2SF x) as [s|s| |s m e]; cbn [SFmul]; try discriminate; try congruence.
  pose proof (binary_round_aux_sign (xorb s false) (Z.pos (m * 4503599627370496)) (e + -53)
                loc_Exact ltac:(lia)) as H.
  destruct (binary_round_aux _ _ _ _ _ _); try discriminate. contradiction.
Qed.

End FloatFacts.

Section PriceTerm.
Import Enhanced Terms FloatSign.

Lemma ltb_distance_positive ms avg y :
  PrimFloat.ltb (price_distance ms avg) y = true -> positive_sf (Prim2SF y).
Proof.
  unfold price_distance. rewrite ltb_spec, abs_spec. apply SFltb_abs_positive.
Qed.

Lemma positive_gt_zero x : positive_sf (Prim2SF x) -> PrimFloat.ltb PyNum.fzero x = true.
Proof. rewrite ltb_spec, Prim2SF_fzero. apply SFltb_zero_positive. Qed.

(** Outside the guard [average > 0] the price rule yields 0 as well. *)
Lemma price_rule_without_average ms avg :
  PrimFloat.ltb PyNum.fzero avg = false -> price_rule ms avg = 0.
Proof.
  intros G. unfold price_rule.
  destruct (PrimFloat.ltb (price_distance ms avg) (PrimFloat.mul avg PyNum.fhalf)) eqn:E1.
  - apply ltb_distance_positive, mul_half_positive, positive_gt_zero in E1. congruence.
  - destruct (PrimFloat.ltb (price_distance ms avg) avg) eqn:E2; [|reflexivity].
    apply ltb_distance_positive, positive_gt_zero in E2. congruence.
Qed.

Lemma price_rule_25 ms avg :
  PrimFloat.ltb (price_distance ms avg) (PrimFloat.mul avg PyNum.fhalf) = true ->
  price_rule ms avg = 25.
Proof. intros H. unfold price_rule. now rewrite H. Qed.

Lemma price_rule_15 ms avg :
  PrimFloat.leb (PrimFloat.mul avg PyNum.fhalf) (price_distance ms avg) = true ->
  PrimFloat.ltb (price_distance ms avg) avg = true ->
  price_rule ms avg = 15.
Proof.
  intros H1 H2. unfold price_rule. rewrite H2.
  rewrite leb_spec in H1. apply SFleb_not_ltb in H1. rewrite <- ltb_spec in H1.
  now rewrite H1.
Qed.

Lemma price_rule_0 ms avg :
  PrimFloat.ltb (price_distance ms avg) (PrimFloat.mul avg PyNum.fhalf) = false ->
  (PrimFloat.leb (PrimFloat.mul avg PyNum.fhalf) (price_distance ms avg) = true ->
   PrimFloat.ltb (price_distance ms avg) avg = false) ->
  price_rule ms avg = 0.
Proof.
  intros H1 H2. unfold price_rule. rewrite H1.
  destruct (PrimFloat.ltb (price_distance ms avg) avg) eqn:E; [|reflexivity].
  assert (Hle : PrimFloat.leb (PrimFloat.mul avg PyNum.fhalf) (price_distance ms avg) = true); [|apply H2 in Hle; congruence].
  rewrite leb_spec. rewrite ltb_spec in H1, E.
  apply SFltb_not_nan in E. destruct E as [Hd Havg].
  apply SFltb_total; auto. now apply mul_half_not_nan.
Qed.

End PriceTerm.

(** C3. The price term is 0 when the marketplace average price is 0, when
    the estimated-sales text lacks "USD", and when no number parses from
    it (or the number parsed is not positive).  Otherwise, with the
    distance [|monthly_sales / 100 - average|], the term is 25 when the
    distance is below half the average, 15 when it is at least half the
    average and below the average, and 0 in every other case.  The term is
    what [_calculate_compatibility_score] adds for the price. *)
Theorem C3_price_term (st : Enhanced.store) (ma : Analysis.t) :
  let avg := Terms.average_of ma in
  let text := Enhanced.str_cell (Enhanced.Estimated_Sales st) in
  Enhanced._calculate_compatibility_score st ma
  = Z.min 100 (Terms.category_term st ma + Terms.price_term st ma
               + Terms.positioning_term st ma + Terms.shipping_term st
               + Terms.scale_term st + Terms.origin_term st)
  /\ (PrimFloat.eqb avg PyNum.fzero = true -> Terms.price_term st ma = 0)
  /\ (PyStr.str_in "USD" text = false -> Terms.price_term st ma = 0)
  /\ (Enhanced.monthly_sales_of text = None -> Terms.price_term st ma = 0)
  /\ (forall monthly_sales,
        Enhanced.monthly_sales_of text = Some monthly_sales ->
        PrimFloat.ltb PyNum.fzero monthly_sales = false ->
        Terms.price_term st ma = 0)
  /\ (forall monthly_sales,
        Enhanced.monthly_sales_of text = Some monthly_sales ->
        PrimFloat.ltb PyNum.fzero monthly_sales = true ->
        PrimFloat.eqb avg PyNum.fzero = false ->
        let distance := Terms.price_distance monthly_sales avg in
        let half := PrimFloat.mul avg PyNum.fhalf in
        (PrimFloat.ltb distance half = true -> Terms.price_term st ma = 25)
        /\ (PrimFloat.leb half distance = true -> PrimFloat.ltb distance avg = true ->
            Terms.price_term st ma = 15)
        /\ (PrimFloat.ltb distance half = false ->
            (PrimFloat.leb half distance = true -> PrimFloat.ltb distance avg = false) ->
            Terms.price_term st ma = 0)).
Proof.
  intros avg text. subst avg text.
  split; [apply score_is_capped_sum|].
  split.
  { intros H. unfold Terms.price_term. rewrite (eqb_zero_not_gt _ H). reflexivity. }
  assert (Hnone : Enhanced.monthly_sales_of (Enhanced.str_cell (Enhanced.Estimated_Sales st)) = None
                  -> Terms.price_term st ma = 0).
  { intros H. unfold Terms.price_term. rewrite H.
    destruct (PrimFloat.ltb PyNum.fzero (Terms.average_of ma)); reflexivity. }
  split.
  { intros H. apply Hnone. unfold Enhanced.monthly_sales_of. now rewrite H. }
  split; [exact Hnone|].
  split.
  { intros ms Hms Hpos. unfold Terms.price_term. rewrite Hms, Hpos.
    destruct (PrimFloat.ltb PyNum.fzero (Terms.average_of ma)); reflexivity. }
  intros ms Hms Hpos _ distance half.
  assert (Hterm : Terms.price_term st ma
                  = if PrimFloat.ltb PyNum.fzero (Terms.average_of ma)
                    then Terms.price_rule ms (Terms.average_of ma) else 0).
  { unfold Terms.price_term. now rewrite Hms, Hpos. }
  assert (Hrule : Terms.price_term st ma = Terms.price_rule ms (Terms.average_of ma)).
  { rewrite Hterm. destruct (PrimFloat.ltb PyNum.fzero (Terms.average_of ma)) eqn:G; [reflexivity|].
    symmetry. now apply price_rule_without_average. }
  rewrite Hrule. repeat split.
  - apply price_rule_25.
  - apply price_rule_15.
  - apply price_rule_0.
Qed.

(** C3, witness: sales of "USD 10,000" against an average price of 120
    give the distance 20, below 60. *)
Lemma C3_price_term_witness :
  Terms.price_term (Examples.tokyo_supplier "https://first.example.jp")
    Examples.priced_electronics = 25.
Proof.
  pose proof (C3_price_term (Examples.tokyo_supplier "https://first.example.jp")
                Examples.priced_electronics) as H.
  cbv zeta in H. destruct H as (_ & _ & _ & _ & _ & H).
  refine (proj1 (H (PyNum.float_of_decimal 10000 0) _ _ _) _);
    vm_compute; reflexivity.
Defined.

(** ** Lemmas on the price statistics *)

Section PriceLemmas.
Import Enhanced PriceSpec.

Lemma price_of_match_spec m :
  price_of_match m
  = match parsed_value m with
    | Some v => if in_range v then Some v else None
    | None => None
    end.
Proof.
  unfold price_of_match, parsed_value, in_range.
  destruct (PyStr.filter Re.is_digit_or_point m); reflexivity.
Qed.

Lemma collect_matches_spec ms : forall acc,
  fold_left
    (fun prices m =>
       match price_of_match m with
       | Some price => (prices ++ [price])%list
       | None => prices
       end) ms acc
  = (acc ++ filter in_range (values_of ms))%list.
Proof.
  induction ms as [|m ms IH]; intros acc; cbn [fold_left].
  - cbn. now rewrite app_nil_r.
  - rewrite IH, price_of_match_spec. unfold values_of. cbn [flat_map].
    rewrite filter_app.
    destruct (parsed_value m) as [v|]; cbn [filter app].
    + destruct (in_range v); cbn [app]; [now rewrite <- app_assoc|reflexivity].
    + reflexivity.
Qed.

Lemma collect_patterns_spec text pats : forall acc,
  fold_left
    (fun prices '(sym, fraction) =>
       fold_left
         (fun prices m =>
            match price_of_match m with
            | Some price => (prices ++ [price])%list
            | None => prices
            end)
         (Re.findall sym fraction text) prices) pats acc
  = (acc ++ filter in_range
              (flat_map (fun '(sym, fraction) => values_of (Re.findall sym fraction text))
                        pats))%list.
Proof.
  induction pats as [|[sym fraction] pats IH]; intros acc; cbn [fold_left flat_map].
  - cbn. now rewrite app_nil_r.
  - rewrite IH, collect_matches_spec, filter_app. now rewrite app_assoc.
Qed.

(** The prices kept are the matched values in range, in the order of the
    patterns and of the matches. *)
Lemma collect_prices_spec text :
  collect_prices text = filter in_range (parsed_values text).
Proof.
  unfold collect_prices, parsed_values. now rewrite collect_patterns_spec.
Qed.

Lemma round2_two_decimals x m e :
  Prim2SF x = S754_finite false m e ->
  PyNum.round2 x = PyNum.float_of_decimal (PyNum.scaled_round 2 m e) 2.
Proof.
  intros H. unfold PyNum.round2. rewrite H.
  destruct (PyNum.scaled_round 2 m e); reflexivity.
Qed.

End PriceLemmas.

(** C4. The prices kept by [_analyze_prices] are exactly the values of the
    regex matches with [1 <= v <= 50000], so "$50000.01" adds no value and
    "$49999.99" adds one.  When none is kept the statistics are average =
    min = max = 0, count = 0 and currency "USD".  When some are kept the
    average is their mean rounded to two decimals and the count is their
    number. *)
Theorem C4_price_statistics (soup : Soup.t) :
  let text := Soup.get_text soup in
  let prices := Enhanced.collect_prices text in
  let stats := Enhanced._analyze_prices soup in
  prices = filter PriceSpec.in_range (PriceSpec.parsed_values text)
  /\ (forall v, In v prices <->
                In v (PriceSpec.parsed_values text)
                /\ PrimFloat.leb PyNum.fone v = true
                /\ PrimFloat.leb v PyNum.f50000 = true)
  /\ (PriceSpec.parsed_values "$50000.01" = [PyNum.float_of_decimal 5000001 2]
      /\ Enhanced.collect_prices "$50000.01" = []
      /\ Enhanced.collect_prices "$49999.99" = [PyNum.float_of_decimal 4999999 2])
  /\ (prices = [] ->
      stats = PriceAnalysis.mk PyNum.fzero PyNum.fzero PyNum.fzero 0 "USD")
  /\ (prices <> [] ->
      PriceAnalysis.average_price stats = PyNum.round2 (PriceSpec.mean prices)
      /\ PriceAnalysis.price_count stats = Z.of_nat (List.length prices)
      /\ forall m e,
           Prim2SF (PriceSpec.mean prices) = S754_finite false m e ->
           PriceAnalysis.average_price stats
           = PyNum.float_of_decimal (PyNum.scaled_round 2 m e) 2).
Proof.
  intros text prices stats.
  assert (Hspec : prices = filter PriceSpec.in_range (PriceSpec.parsed_values text))
    by apply collect_prices_spec.
  split; [exact Hspec|].
  split.
  { intros v. rewrite Hspec, filter_In. unfold PriceSpec.in_range.
    rewrite andb_true_iff. reflexivity. }
  split; [repeat split; vm_compute; reflexivity|].
  assert (Hstats : stats = Enhanced._analyze_prices soup) by reflexivity.
  unfold Enhanced._analyze_prices in Hstats. fold text prices in Hstats.
  split.
  - intros Hnil. rewrite Hstats, Hnil. reflexivity.
  - intros Hcons. destruct prices as [|first rest] eqn:E; [congruence|].
    rewrite Hstats. cbn [PriceAnalysis.average_price PriceAnalysis.price_count].
    split; [reflexivity|]. split; [reflexivity|].
    intros m e Hm. now apply round2_two_decimals.
Qed.

(** C4, witness: the page "Tokyo Style" holds one price, 120. *)
Lemma C4_price_statistics_witness :
  PriceAnalysis.average_price (Enhanced._analyze_prices Examples.tokyo_style)
  = PyNum.round2 (PriceSpec.mean (Enhanced.collect_prices (Soup.get_text Examples.tokyo_style)))
  /\ PriceAnalysis.price_count (Enhanced._analyze_prices Examples.tokyo_style)
     = Z.of_nat (List.length (Enhanced.collect_prices (Soup.get_text Examples.tokyo_style))).
Proof.
  pose proof (C4_price_statistics Examples.tokyo_style) as H.
  cbv zeta in H. destruct H as (_ & _ & _ & _ & H).
  assert (Hne : Enhanced.collect_prices (Soup.get_text Examples.tokyo_style) <> [])
    by (vm_compute; discriminate).
  destruct (H Hne) as (Havg & Hcount & _).
  split; assumption.
Defined.

(** ** Lemmas on the categories *)

Section CategoryLemmas.
Import Enhanced Terms.

Lemma filter_single {A} (p : A -> bool) (x : A) (l : list A) :
  NoDup l -> In x l -> p x = true ->
  (forall y, In y l -> p y = true -> y = x) ->
  filter p l = [x].
Proof.
  induction l as [|a l IH]; intros Hnd Hin Hx Hall; [contradiction|].
  inversion Hnd as [|a' l' Hnotin Hnd']; subst a' l'.
  assert (Hrest : forall y, In y l -> y <> x -> p y = false).
  { intros y Hy Hne. destruct (p y) eqn:E; [|reflexivity].
    exfalso. apply Hne. apply Hall; [now right|exact E]. }
  cbn [filter]. destruct Hin as [->|Hin].
  - rewrite Hx. f_equal.
    assert (Hnone : forall y, In y l -> p y = false).
    { intros y Hy. apply Hrest; [exact Hy|]. intros ->. contradiction. }
    clear -Hnone. induction l as [|b l IH]; [reflexivity|].
    cbn [filter]. rewrite (Hnone b (or_introl eq_refl)).
    apply IH. intros y Hy. apply Hnone. now right.
  - assert (Ha : p a = false).
    { destruct (p a) eqn:E; [|reflexivity].
      exfalso. apply Hnotin. now rewrite (Hall a (or_introl eq_refl) E). }
    rewrite Ha. apply IH; auto.
    intros y Hy. apply Hall. now right.
Qed.

Lemma categories_of_text_spec text :
  categories_of_text text
  = map fst (filter (fun '(_, keywords) => PyStr.any_in keywords text) category_keywords).
Proof.
  unfold categories_of_text.
  assert (H : forall (table : list (string * list string)) (acc : list string),
             fold_left
               (fun categories '(category, keywords) =>
                  if PyStr.any_in keywords text
                  then (categories ++ [category])%list
                  else categories) table acc
             = (acc ++ map fst (filter (fun '(_, keywords) => PyStr.any_in keywords text)
                                       table))%list).
  { induction table as [|[c kws] table IH]; intros acc; cbn [fold_left filter].
    - cbn. now rewrite app_nil_r.
    - rewrite IH. destruct (PyStr.any_in kws text); cbn [map fst].
      + now rewrite <- app_assoc.
      + reflexivity. }
  apply H.
Qed.

Lemma filtered_labels_nodup (keep : string * list string -> bool)
      (table : list (string * list string)) (Hnd : NoDup (map fst table)) :
  NoDup (map fst (filter keep table)).
Proof.
  induction table as [|[label kws] table IH]; cbn [map filter fst] in *; [constructor|].
  apply NoDup_cons_iff in Hnd. destruct Hnd as [Hfresh Hnd].
  destruct (keep (label, kws)); cbn [map fst]; [|now apply IH].
  constructor; [|now apply IH].
  intros Hin. apply Hfresh. apply in_map_iff in Hin.
  destruct Hin as (entry & Hentry & Hin). apply filter_In in Hin.
  apply in_map_iff. exists entry. tauto.
Qed.

Lemma NoDup_firstn {A} n (l : list A) : NoDup l -> NoDup (firstn n l).
Proof.
  intros H. rewrite <- (firstn_skipn n l) in H. now apply NoDup_app_remove_r in H.
Qed.

End CategoryLemmas.

(** C6, amended. A supplier described as "Affordable Tokyo electronics,
    budget-friendly", scored against a marketplace of positioning "value"
    whose categories include "electronics" (the other categories not being
    found in the supplier's own category text), gets 20 for the category,
    15 for the positioning and 15 for the origin: 50 before the shipping,
    scale and price terms are added. *)
Theorem C6_scoring_scenario (st : Enhanced.store) (ma : Analysis.t)
  (Hdescription :
     Enhanced.Description st = Enhanced.Val "Affordable Tokyo electronics, budget-friendly")
  (Hpositioning : Terms.positioning_of ma = "value")
  (Helectronics : In "electronics" (Analysis.categories ma))
  (Hnodup : NoDup (Analysis.categories ma))
  (Hlabels : incl (Analysis.categories ma) (map fst Enhanced.category_keywords))
  (Hothers : forall c, In c (Analysis.categories ma) -> c <> "electronics" ->
                       PyStr.str_in c (Terms.store_categories st) = false) :
  Terms.category_term st ma = 20
  /\ Terms.positioning_term st ma = 15
  /\ Terms.origin_term st = 15
  /\ Enhanced._calculate_compatibility_score st ma
     = Z.min 100 (50 + Terms.shipping_term st + Terms.scale_term st
                  + Terms.price_term st ma).
Proof.
  assert (Hd : Terms.store_description st = "affordable tokyo electronics, budget-friendly").
  { unfold Terms.store_description. rewrite Hdescription. vm_compute. reflexivity. }
  assert (Hcat : Terms.category_term st ma = 20).
  { unfold Terms.category_term.
    rewrite (filter_single (Terms.category_matches st) "electronics"); auto.
    - unfold Terms.category_matches. rewrite Hd.
      apply orb_true_iff. right. vm_compute. reflexivity.
    - intros y Hy Hmatch. destruct (String.eqb_spec y "electronics") as [E|E]; [exact E|].
      exfalso. unfold Terms.category_matches in Hmatch.
      rewrite (Hothers y Hy E), Hd in Hmatch. cbn [orb] in Hmatch.
      apply Hlabels in Hy. cbn in Hy.
      repeat (destruct Hy as [<-|Hy]; [first [now apply E | vm_compute in Hmatch; discriminate]|]).
      contradiction. }
  assert (Hpos : Terms.positioning_term st ma = 15).
  { unfold Terms.positioning_term. rewrite Hpositioning, Hd. vm_compute. reflexivity. }
  assert (Hori : Terms.origin_term st = 15).
  { unfold Terms.origin_term. rewrite Hd. vm_compute. reflexivity. }
  repeat split; try assumption.
  rewrite score_is_capped_sum. unfold Terms.uncapped.
  rewrite Hcat, Hpos, Hori. f_equal. lia.
Qed.

(** C6, witness: the supplier of the scenario against the marketplace
    selling electronics. *)
Lemma C6_scoring_scenario_witness :
  Terms.category_term (Examples.tokyo_supplier "https://first.example.jp")
    Examples.value_electronics = 20
  /\ Terms.positioning_term (Examples.tokyo_supplier "https://first.example.jp")
       Examples.value_electronics = 15
  /\ Terms.origin_term (Examples.tokyo_supplier "https://first.example.jp") = 15
  /\ Enhanced._calculate_compatibility_score
       (Examples.tokyo_supplier "https://first.example.jp") Examples.value_electronics
     = Z.min 100 (50 + Terms.shipping_term (Examples.tokyo_supplier "https://first.example.jp")
                  + Terms.scale_term (Examples.tokyo_supplier "https://first.example.jp")
                  + Terms.price_term (Examples.tokyo_supplier "https://first.example.jp")
                      Examples.value_electronics).
Proof.
  apply (C6_scoring_scenario (Examples.tokyo_supplier "https://first.example.jp")
           Examples.value_electronics).
  - reflexivity.
  - reflexivity.
  - cbn. left. reflexivity.
  - cbn. repeat constructor. intros [].
  - intros c [<-|[]]. cbn. tauto.
  - intros c [<-|[]] H. now contradiction H.
Defined.

(** C6 as stated fails: a supplier with the description of the scenario
    whose category text is "Home, Electronics", scored against a marketplace
    of positioning "value" with the categories "electronics" and "home",
    gets 40 for the categories, not 20, and 70 in all. *)
Lemma C6_counterexample_second_category :
  Scenario.conditions Scenario.home_electronics_supplier Scenario.electronics_and_home
  /\ ~ Scenario.contributions Scenario.home_electronics_supplier Scenario.electronics_and_home
  /\ Terms.category_term Scenario.home_electronics_supplier Scenario.electronics_and_home = 40
  /\ Enhanced._calculate_compatibility_score Scenario.home_electronics_supplier
       Scenario.electronics_and_home = 70.
Proof.
  split; [repeat split; cbn; auto|].
  assert (H : Terms.category_term Scenario.home_electronics_supplier
                Scenario.electronics_and_home = 40) by (vm_compute; reflexivity).
  split; [intros (H20 & _); rewrite H in H20; discriminate H20|].
  split; [exact H|]. vm_compute. reflexivity.
Qed.

(** C7. A page whose text is the title "Tokyo Style" followed by the body
    "Premium Japanese fashion, $120 dresses", and whose [html] element
    declares [lang="ja"], yields the categories ["fashion"], the language
    "ja", the positioning "premium" with a luxury score of 1 and a value
    score of 0, and price statistics of average 120.0, count 1 and
    currency "USD". *)
Theorem C7_extraction_scenario (soup : Soup.t)
  (name : string) (attrs : list (string * string)) (children : list Soup.node)
  (Htext : Soup.get_text soup = "Tokyo Style" ++ "Premium Japanese fashion, $120 dresses")
  (Hroot : Soup.find (Soup.having_attr "html" "lang") soup = Some (Soup.Elem name attrs children))
  (Hlang : Soup.attr "lang" attrs = Some "ja") :
  In "fashion" (Enhanced._extract_categories soup)
  /\ Enhanced._extract_categories soup = ["fashion"]
  /\ Enhanced._detect_language soup = "ja"
  /\ Enhanced._analyze_brands soup = BrandAnalysis.mk "premium" 1 0
  /\ Enhanced._analyze_prices soup
     = PriceAnalysis.mk 120%float 120%float 120%float 1 "USD"
  /\ PriceAnalysis.average_price (Enhanced._analyze_prices soup) = 120%float
  /\ PriceAnalysis.price_count (Enhanced._analyze_prices soup) = 1
  /\ PriceAnalysis.currency_detected (Enhanced._analyze_prices soup) = "USD".
Proof.
  assert (Hcat : Enhanced._extract_categories soup = ["fashion"]).
  { unfold Enhanced._extract_categories. rewrite Htext. vm_compute. reflexivity. }
  assert (Hprices : Enhanced._analyze_prices soup
                    = PriceAnalysis.mk 120%float 120%float 120%float 1 "USD").
  { unfold Enhanced._analyze_prices, Enhanced._detect_currency. rewrite Htext.
    vm_compute. reflexivity. }
  split; [rewrite Hcat; now left|].
  split; [exact Hcat|].
  split.
  { unfold Enhanced._detect_language. rewrite Hroot. cbn [Soup.node_attrs].
    rewrite Hlang. reflexivity. }
  split.
  { unfold Enhanced._analyze_brands. rewrite Htext. vm_compute. reflexivity. }
  split; [exact Hprices|].
  rewrite Hprices. repeat split.
Qed.

(** C7, witness: the page of the scenario, with the title in its head. *)
Lemma C7_extraction_scenario_witness :
  In "fashion" (Enhanced._extract_categories Examples.tokyo_style)
  /\ Enhanced._detect_language Examples.tokyo_style = "ja"
  /\ Enhanced._analyze_brands Examples.tokyo_style = BrandAnalysis.mk "premium" 1 0
  /\ PriceAnalysis.average_price (Enhanced._analyze_prices Examples.tokyo_style) = 120%float
  /\ PriceAnalysis.price_count (Enhanced._analyze_prices Examples.tokyo_style) = 1
  /\ PriceAnalysis.currency_detected (Enhanced._analyze_prices Examples.tokyo_style) = "USD".
Proof.
  pose proof (C7_extraction_scenario Examples.tokyo_style "html" [("lang", "ja")]
                [ Soup.Elem "head" [] [ Soup.Elem "title" [] [ Soup.Text "Tokyo Style" ] ];
                  Soup.Elem "body" [] [ Soup.Text "Premium Japanese fashion, $120 dresses" ] ]
                eq_refl eq_refl eq_refl) as H.
  destruct H as (H1 & _ & H2 & H3 & _ & H4 & H5 & H6).
  repeat split; assumption.
Defined.

(** C5. With an empty supplier list [save_results] writes no tabular file
    and writes the summary, with a supplier count of 0 and a mean score of
    0; but the call then raises instead of returning the two file names. *)
Theorem C5_empty_list_summary_without_return (timestamp : string) (ma : Analysis.t) :
  exists s,
    fst (Enhanced.save_results timestamp ma [])
    = [("matching_results_" ++ timestamp ++ "_summary.json", Enhanced.Json s)]
    /\ Enhanced.summary_marketplace_analysis s = ma
    /\ Enhanced.supplier_recommendations s = []
    /\ Enhanced.total_suppliers (Enhanced.summary_stats_of s) = 0
    /\ Enhanced.avg_compatibility_score (Enhanced.summary_stats_of s) = PyNum.Int 0
    /\ forall names, snd (Enhanced.save_results timestamp ma []) <> Enhanced.Returned names.
Proof.
  eexists. cbn. repeat split. intros names H. discriminate H.
Qed.

(** C10. Called with an empty supplier list, [save_results] writes the
    JSON summary and then raises [UnboundLocalError] at its [return]:
    [csv_filename] is bound only when the list is not empty, in which case
    the two file names are returned.  A run whose recommendations are empty
    therefore ends on the uncaught exception, with the summary written and
    exit status 1. *)
Theorem C10_unbound_csv_filename (timestamp : string) (ma : Analysis.t) :
  snd (Enhanced.save_results timestamp ma []) = Enhanced.Raised "UnboundLocalError"
  /\ (exists s,
        fst (Enhanced.save_results timestamp ma [])
        = [("matching_results_" ++ timestamp ++ "_summary.json", Enhanced.Json s)])
  /\ (forall x rest,
        snd (Enhanced.save_results timestamp ma (x :: rest))
        = Enhanced.Returned ("matching_results_" ++ timestamp ++ ".csv",
                             "matching_results_" ++ timestamp ++ "_summary.json"))
  /\ (forall env marketplace_url max_suppliers rows,
        Enhanced.parse_arguments (Enhanced.argv env) = inr (marketplace_url, max_suppliers) ->
        Enhanced.database env = Some rows ->
        Enhanced.analyze_marketplace env marketplace_url = Some ma ->
        Enhanced.generate_supplier_recommendations max_suppliers ma (Some rows) = [] ->
        snd (Enhanced.main env) = Process.Uncaught "UnboundLocalError"
        /\ Process.exit_status (snd (Enhanced.main env)) = 1
        /\ exists s,
             fst (Enhanced.main env)
             = [("matching_results_" ++ Enhanced.now_strftime env ++ "_summary.json",
                 Enhanced.Json s)]).
Proof.
  split; [reflexivity|].
  split; [eexists; reflexivity|].
  split; [intros x rest; reflexivity|].
  intros env marketplace_url max_suppliers rows Hargs Hdb Hana Hgen.
  unfold Enhanced.main. rewrite Hargs, Hdb, Hana, Hgen. cbn.
  repeat split. eexists. reflexivity.
Qed.

(** C10, witness: a run against a table in which no store qualifies. *)
Lemma C10_unbound_csv_filename_witness :
  snd (Enhanced.main
         (Examples.run_with ["analyzer.py"; "https://shop.example.com"] (Some [])))
  = Process.Uncaught "UnboundLocalError"
  /\ Process.exit_status
       (snd (Enhanced.main
               (Examples.run_with ["analyzer.py"; "https://shop.example.com"] (Some []))))
     = 1.
Proof.
  pose (env := Examples.run_with ["analyzer.py"; "https://shop.example.com"] (Some [])).
  destruct (Enhanced.analyze_marketplace env "https://shop.example.com") as [ma|] eqn:Hana;
    [|discriminate Hana].
  destruct (C10_unbound_csv_filename "20250101_120000" ma) as (_ & _ & _ & H).
  destruct (H env "https://shop.example.com" 20 [] eq_refl eq_refl Hana eq_refl)
    as (H1 & H2 & _).
  split; assumption.
Defined.

(** C8. Whatever the URL, the page fetched and the time stamp, every
    tabular file the fallback analyzer writes holds the same five sample
    suppliers: a run that fetches a page writes exactly one such file, and a
    run whose request fails writes no file at all. *)
Theorem C8_fixed_sample_suppliers
        (page1 page2 : option Soup.t) (timestamp1 timestamp2 url1 url2 : string) :
  let run1 := Simple.analyze_marketplace page1 timestamp1 url1 in
  let run2 := Simple.analyze_marketplace page2 timestamp2 url2 in
  List.length Simple.suppliers = 5%nat
  /\ Forall (eq Simple.suppliers) (Simple.csv_rows (fst run1))
  /\ Forall (eq Simple.suppliers) (Simple.csv_rows (fst run2))
  /\ (forall soup1 soup2,
        Simple.csv_rows (fst (Simple.analyze_marketplace (Some soup1) timestamp1 url1))
        = [Simple.suppliers]
        /\ Simple.csv_rows (fst (Simple.analyze_marketplace (Some soup1) timestamp1 url1))
           = Simple.csv_rows (fst (Simple.analyze_marketplace (Some soup2) timestamp2 url2)))
  /\ Simple.analyze_marketplace None timestamp1 url1 = ([], false)
  /\ (forall args fetch,
        Forall (eq Simple.suppliers)
               (Simple.csv_rows (fst (Simple.main args fetch timestamp1)))).
Proof.
  intros run1 run2.
  assert (H : forall page timestamp url,
             Forall (eq Simple.suppliers)
                    (Simple.csv_rows (fst (Simple.analyze_marketplace page timestamp url)))).
  { intros [soup|] timestamp url; cbn; repeat constructor. }
  split; [reflexivity|].
  split; [apply H|].
  split; [apply H|].
  split; [intros soup1 soup2; split; reflexivity|].
  split; [reflexivity|].
  intros args fetch. unfold Simple.main.
  match goal with
  | |- context [Simple.analyze_marketplace ?p ?t ?u] =>
      specialize (H p t u); destruct (Simple.analyze_marketplace p t u) as [files ok]
  end.
  exact H.
Qed.

(** C9, amended. The enhanced analyzer invoked without a marketplace URL
    stops on its usage message with exit status 1, and without
    [max_suppliers] it takes 20.  The fallback analyzer has no usage error:
    without a URL it analyses its built-in URL, it reads no
    [max_suppliers], and it ends with exit status 0. *)
Theorem C9_usage_error_and_defaults (env : Enhanced.environment)
        (Hargs : (List.length (Enhanced.argv env) < 2)%nat) :
  Enhanced.main env = ([], Process.SysExit 1 Enhanced.usage)
  /\ Usage.usage_error (snd (Enhanced.main env))
  /\ Process.exit_status (snd (Enhanced.main env)) <> 0
  /\ (forall program marketplace_url,
        Enhanced.parse_arguments [program; marketplace_url] = inr (marketplace_url, 20))
  /\ (forall program fetch timestamp,
        Simple.main [program] fetch timestamp
        = (fst (Simple.analyze_marketplace (fetch Usage.default_url) timestamp
                  Usage.default_url),
           Process.Finished)
        /\ Process.exit_status (snd (Simple.main [program] fetch timestamp)) = 0)
  /\ (forall program url extra fetch timestamp,
        Simple.main (program :: url :: extra) fetch timestamp
        = Simple.main [program; url] fetch timestamp).
Proof.
  assert (Hmain : Enhanced.main env = ([], Process.SysExit 1 Enhanced.usage)).
  { unfold Enhanced.main, Enhanced.parse_arguments.
    destruct (Enhanced.argv env) as [|a [|b rest]]; cbn in Hargs; try reflexivity. lia. }
  split; [exact Hmain|].
  rewrite Hmain. cbn [snd Process.exit_status].
  split; [exists 1, Enhanced.usage; split; [reflexivity|lia]|].
  split; [lia|].
  split; [reflexivity|].
  split.
  - intros program fetch timestamp. unfold Simple.main, Usage.default_url.
    destruct (Simple.analyze_marketplace _ _ _) as [files ok]. split; reflexivity.
  - reflexivity.
Qed.

(** C9, witness: the enhanced analyzer started with no argument. *)
Lemma C9_usage_error_and_defaults_witness :
  Enhanced.main (Examples.run_with ["github_actions_enhanced_analyzer.py"] None)
  = ([], Process.SysExit 1 Enhanced.usage).
Proof.
  refine (proj1 (C9_usage_error_and_defaults
                   (Examples.run_with ["github_actions_enhanced_analyzer.py"] None) _)).
  cbn. lia.
Defined.

(** C9 as stated fails for the fallback analyzer: started without a URL,
    with a request that fails, it does not stop on a usage error; it runs to
    its end with exit status 0. *)
Lemma C9_counterexample_fallback_has_no_usage_error :
  ~ Usage.usage_error
      (snd (Simple.main ["simple_marketplace_analyzer.py"] (fun _ => None) "20250101_120000"))
  /\ Process.exit_status
       (snd (Simple.main ["simple_marketplace_analyzer.py"] (fun _ => None) "20250101_120000"))
     = 0.
Proof.
  split; [|reflexivity].
  intros (code & message & H & _). discriminate H.
Qed.

(** X1. The categories [_extract_categories] returns are labels of its
    keyword table, in the order of the table, each at most once, and at
    most ten of them. *)
Theorem X1_extracted_categories (soup : Soup.t) :
  Enhanced._extract_categories soup
  = firstn 10
      (map fst
         (filter (fun '(_, keywords) =>
                    PyStr.any_in keywords (PyStr.lower (Soup.get_text soup)))
                 Enhanced.category_keywords))
  /\ NoDup (Enhanced._extract_categories soup)
  /\ incl (Enhanced._extract_categories soup) (map fst Enhanced.category_keywords)
  /\ (List.length (Enhanced._extract_categories soup) <= 10)%nat.
Proof.
  unfold Enhanced._extract_categories. rewrite categories_of_text_spec.
  split; [reflexivity|]. split; [|split].
  - apply NoDup_firstn, filtered_labels_nodup.
    vm_compute. repeat (constructor; [cbn; intuition discriminate|]). constructor.
  - intros c Hc. apply firstn_In in Hc. apply in_map_iff in Hc.
    destruct Hc as (entry & Hentry & Hin). apply filter_In in Hin.
    apply in_map_iff. exists entry. tauto.
  - apply firstn_le_length.
Qed.

(** X2. With a negative [max_suppliers] the slice counts from the end:
    the list returned is the ranking of the qualifying records without its
    last [-max_suppliers] entries. *)
Theorem X2_negative_max_suppliers (max_suppliers : Z) (ma : Analysis.t)
        (rows : list Enhanced.store) (Hmax : max_suppliers < 0) :
  let ranked := Enhanced.sort_desc (Ranking.qualifying ma rows) in
  Enhanced.generate_supplier_recommendations max_suppliers ma (Some rows)
  = firstn (Z.to_nat (Z.of_nat (List.length ranked) + max_suppliers)) ranked.
Proof.
  intros ranked. rewrite generate_spec. unfold Enhanced.slice_to.
  apply Z.leb_gt in Hmax. now rewrite Hmax.
Qed.

(** X2, witness: two qualifying suppliers and [max_suppliers = -1] leave
    one entry. *)
Lemma X2_negative_max_suppliers_witness :
  List.length
    (Enhanced.generate_supplier_recommendations (-1) Examples.value_electronics
       (Some Examples.two_suppliers)) = 1%nat.
Proof.
  rewrite (X2_negative_max_suppliers (-1) Examples.value_electronics
             Examples.two_suppliers eq_refl).
  vm_compute. reflexivity.
Defined.

(** ** Lemmas on texts *)

Section TextLemmas.
Import PyStr.

Lemma prefix_app n h : prefix n h = true <-> exists b, h = n ++ b.
Proof.
  revert h. induction n as [|c n IH]; intros h.
  - split; [intros _; now exists h|intros _; now destruct h].
  - destruct h as [|d h]; cbn [prefix].
    + split; [discriminate|]. intros [b Hb]. discriminate Hb.
    + destruct (ascii_dec c d) as [->|Hne].
      * rewrite IH. split; intros [b Hb]; exists b.
        -- cbn. now rewrite Hb.
        -- cbn in Hb. now inversion Hb.
      * split; [discriminate|]. intros [b Hb]. cbn in Hb. inversion Hb. congruence.
Qed.

Lemma str_in_cons n c r :
  str_in n (String c r) = prefix n (String c r) || str_in n r.
Proof. cbn [str_in]. now destruct (prefix n (String c r)). Qed.

(** [needle in hay] holds exactly when [hay] is some text, the needle,
    and some text. *)
Lemma str_in_app n h : str_in n h = true <-> exists a b, h = a ++ n ++ b.
Proof.
  induction h as [|c r IH].
  - cbn [str_in]. destruct (prefix n "") eqn:E.
    + apply prefix_app in E. destruct E as [b Hb].
      split; [intros _; exists "", b; exact Hb|reflexivity].
    + split; [discriminate|]. intros (a & b & H).
      destruct a; [|discriminate H]. cbn in H.
      assert (prefix n "" = true) by (apply prefix_app; now exists b). congruence.
  - rewrite str_in_cons, orb_true_iff, IH, prefix_app. split.
    + intros [[b Hb]|(a & b & Hab)].
      * exists "", b. exact Hb.
      * exists (String c a), b. cbn. now rewrite Hab.
    + intros (a & b & H). destruct a as [|d a].
      * left. exists b. exact H.
      * right. cbn in H. inversion H. now exists a, b.
Qed.

Lemma string_app_assoc (a b c : string) : (a ++ b) ++ c = a ++ b ++ c.
Proof. induction a as [|x a IH]; cbn; [reflexivity|now rewrite IH]. Qed.

Lemma str_in_trans a b c :
  str_in a b = true -> str_in b c = true -> str_in a c = true.
Proof.
  rewrite !str_in_app. intros (p & q & ->) (r & s & ->).
  exists (r ++ p), (q ++ s). now rewrite !string_app_assoc.
Qed.

Lemma lower_app a b : lower (a ++ b) = lower a ++ lower b.
Proof. induction a as [|x a IH]; cbn; [reflexivity|now rewrite IH]. Qed.

Lemma str_in_lower n h : str_in n h = true -> str_in (lower n) (lower h) = true.
Proof.
  rewrite !str_in_app. intros (a & b & ->).
  exists (lower a), (lower b). now rewrite !lower_app.
Qed.

Lemma lower_char_idempotent c : lower_char (lower_char c) = lower_char c.
Proof.
  destruct c as [[] [] [] [] [] [] [] []]; vm_compute; reflexivity.
Qed.

Lemma lower_idempotent s : lower (lower s) = lower s.
Proof.
  induction s as [|c s IH]; cbn; [reflexivity|].
  now rewrite lower_char_idempotent, IH.
Qed.

Lemma slice_to_length n s : (String.length (slice_to n s) <= n)%nat.
Proof.
  revert s. induction n as [|n IH]; intros [|c s]; cbn; try lia.
  specialize (IH s). lia.
Qed.

Lemma slice_to_prefix n s : prefix (slice_to n s) s = true.
Proof.
  revert s. induction n as [|n IH]; intros [|c s]; cbn; try reflexivity.
  destruct (ascii_dec c c); [apply IH|congruence].
Qed.

Lemma split_head_no_sep sep s : str_in (String sep "") (split_head sep s) = false.
Proof.
  induction s as [|c s IH]; cbn [split_head]; [reflexivity|].
  destruct (Ascii.eqb c sep) eqn:E; [reflexivity|].
  rewrite str_in_cons, IH, orb_false_r. cbn.
  destruct (ascii_dec sep c) as [->|]; [|reflexivity].
  now rewrite Ascii.eqb_refl in E.
Qed.

Lemma count_in_step words s : forall acc,
  fold_left (fun acc w => if str_in w s then acc + 1 else acc) words acc
  = acc + count_in words s.
Proof.
  unfold count_in. induction words as [|w words IH]; intros acc; cbn [fold_left]; [lia|].
  rewrite IH. rewrite (IH (if str_in w s then 0 + 1 else 0)).
  destruct (str_in w s); lia.
Qed.

Lemma count_in_bounds words s : 0 <= count_in words s <= Z.of_nat (List.length words).
Proof.
  induction words as [|w words IH]; [cbn; lia|].
  unfold count_in. cbn [fold_left List.length]. rewrite count_in_step.
  destruct (str_in w s); lia.
Qed.

End TextLemmas.

(** ** More on the score *)

Section ScoreFacts.
Import Enhanced Terms.

Lemma price_term_values st ma :
  price_term st ma = 0 \/ price_term st ma = 15 \/ price_term st ma = 25.
Proof.
  unfold price_term.
  destruct (PrimFloat.ltb PyNum.fzero (average_of ma)); [|now left].
  destruct (monthly_sales_of _) as [ms|]; [|now left].
  destruct (PrimFloat.ltb PyNum.fzero ms); [|now left].
  destruct (price_rule_values ms (average_of ma)) as [H|[H|H]]; rewrite H; auto.
Qed.

Lemma uncapped_divisible st ma : (5 | uncapped st ma).
Proof.
  unfold uncapped.
  assert (H1 : (5 | category_term st ma)).
  { unfold category_term. exists (4 * Z.of_nat (List.length (filter (category_matches st)
                                                              (Analysis.categories ma)))).
    lia. }
  assert (H2 : (5 | price_term st ma)).
  { destruct (price_term_values st ma) as [H|[H|H]]; rewrite H;
      [exists 0|exists 3|exists 5]; lia. }
  assert (H3 : (5 | positioning_term st ma)).
  { unfold positioning_term. repeat destruct (_ && _); [exists 3|exists 3|exists 0]; lia. }
  assert (H4 : (5 | shipping_term st)).
  { unfold shipping_term. destruct (_ || _); [exists 2|exists 0]; lia. }
  assert (H5 : (5 | scale_term st)).
  { unfold scale_term. destruct (_ && _); [|exists 0; lia].
    repeat destruct (PyNum.num_gt _ _); [exists 2|exists 1|exists 0]; lia. }
  assert (H6 : (5 | origin_term st)).
  { unfold origin_term. destruct (PyStr.any_in _ _); [exists 3|exists 0]; lia. }
  repeat apply Z.divide_add_r; assumption.
Qed.

Lemma labels_not_in_blank c :
  In c (map fst category_keywords) ->
  PyStr.str_in c "" = false /\ PyStr.str_in c "nan" = false.
Proof.
  cbn. intros H.
  repeat (destruct H as [<-|H]; [split; vm_compute; reflexivity|]).
  contradiction.
Qed.

Lemma filter_none {A} (p : A -> bool) (l : list A) :
  (forall x, In x l -> p x = false) -> filter p l = [].
Proof.
  induction l as [|a l IH]; intros H; [reflexivity|].
  cbn [filter]. rewrite (H a (or_introl eq_refl)). apply IH.
  intros x Hx. apply H. now right.
Qed.

End ScoreFacts.

(** X3. Every compatibility score is a multiple of 5. *)
Theorem X3_score_multiple_of_5 (st : Enhanced.store) (ma : Analysis.t) :
  (5 | Enhanced._calculate_compatibility_score st ma).
Proof.
  rewrite score_is_capped_sum.
  destruct (Z.min_spec 100 (Terms.uncapped st ma)) as [[_ ->]|[_ ->]].
  - exists 20. lia.
  - apply uncapped_divisible.
Qed.

(** X4. A row of the stores table with no categories, description,
    shipping, sales and product count scores 0 against every marketplace
    whose categories are labels of the keyword table: the text "nan" that
    [str] makes of an empty cell matches nothing, and the row is never
    recommended. *)
Theorem X4_blank_row_scores_zero (st : Enhanced.store) (ma : Analysis.t)
        (Hblank : Missing.blank_row st)
        (Hlabels : incl (Analysis.categories ma) (map fst Enhanced.category_keywords)) :
  Enhanced._calculate_compatibility_score st ma = 0
  /\ forall max_suppliers index,
       Enhanced.generate_supplier_recommendations max_suppliers ma (Some [st]) = []
       /\ Enhanced.score_rows ma index [st] [] = [].
Proof.
  destruct Hblank as (Hc & Hd & Hs & He & Hn).
  assert (Hscore : Enhanced._calculate_compatibility_score st ma = 0).
  { rewrite score_is_capped_sum. unfold Terms.uncapped.
    assert (Hcat : Terms.category_term st ma = 0).
    { unfold Terms.category_term. rewrite filter_none; [reflexivity|].
      intros c Hin. apply Hlabels, labels_not_in_blank in Hin. destruct Hin as [H1 H2].
      unfold Terms.category_matches, Terms.store_categories, Terms.store_description.
      destruct (Enhanced.Categories st), (Enhanced.Description st);
        try contradiction; cbn [Enhanced.str_cell];
        change (PyStr.lower "nan") with "nan"; change (PyStr.lower "") with "";
        rewrite ?H1, ?H2; reflexivity. }
    assert (Hprice : Terms.price_term st ma = 0).
    { unfold Terms.price_term.
      destruct (PrimFloat.ltb PyNum.fzero (Terms.average_of ma)); [|reflexivity].
      destruct (Enhanced.Estimated_Sales st); try contradiction; reflexivity. }
    assert (Hpos : Terms.positioning_term st ma = 0).
    { unfold Terms.positioning_term, Terms.store_description.
      destruct (Enhanced.Description st); try contradiction;
        cbn [Enhanced.str_cell]; rewrite !andb_false_r by reflexivity;
        repeat match goal with
               | |- context [?a && PyStr.any_in ?w ?t] =>
                   replace (PyStr.any_in w t) with false by (vm_compute; reflexivity);
                   rewrite (andb_false_r a)
               end; reflexivity. }
    assert (Hship : Terms.shipping_term st = 0).
    { unfold Terms.shipping_term.
      destruct (Enhanced.Ships_To st); try contradiction; reflexivity. }
    assert (Hscale : Terms.scale_term st = 0).
    { unfold Terms.scale_term. unfold Missing.no_count in Hn.
      destruct (Enhanced.Products_Count st) as [n|]; [now rewrite Hn|reflexivity]. }
    assert (Hori : Terms.origin_term st = 0).
    { unfold Terms.origin_term, Terms.store_description.
      destruct (Enhanced.Description st); try contradiction; reflexivity. }
    rewrite Hcat, Hprice, Hpos, Hship, Hscale, Hori. reflexivity. }
  split; [exact Hscore|].
  intros max_suppliers index.
  unfold Enhanced.generate_supplier_recommendations. cbn [Enhanced.score_rows].
  rewrite Hscore. cbn. split; [|reflexivity].
  unfold Enhanced.slice_to. destruct (0 <=? max_suppliers); now rewrite firstn_nil.
Qed.

(** X4, witness: a row holding a URL only, against the marketplace
    selling electronics. *)
Lemma X4_blank_row_scores_zero_witness :
  Enhanced._calculate_compatibility_score
    (Enhanced.mk_store (Enhanced.Val "https://empty.example.jp") Enhanced.NaN Enhanced.NaN
       Enhanced.NaN Enhanced.Absent None)
    Examples.value_electronics = 0.
Proof.
  refine (proj1 (X4_blank_row_scores_zero _ Examples.value_electronics _ _)).
  - repeat split.
  - intros c [<-|[]]. cbn. tauto.
Defined.

(** ** More on the recommendations *)

Section ReportFacts.
Import Enhanced Ranking.

Lemma candidates_from_In ma rows : forall index info,
  In info (candidates_from ma index rows) <->
  exists i st,
    nth_error rows i = Some st
    /\ info = make_store_info (index + Z.of_nat i) st (_calculate_compatibility_score st ma).
Proof.
  induction rows as [|st0 rest IH]; intros index info; cbn [candidates_from In].
  - split; [contradiction|]. intros ([|i] & st & H & _); discriminate H.
  - rewrite IH. split.
    + intros [<-|(i & st & Hnth & ->)].
      * exists 0%nat, st0. split; [reflexivity|]. now rewrite Z.add_0_r.
      * exists (S i), st. split; [exact Hnth|]. f_equal. lia.
    + intros ([|i] & st & Hnth & ->); cbn in Hnth.
      * left. inversion Hnth. now rewrite Z.add_0_r.
      * right. exists i, st. split; [exact Hnth|]. f_equal. lia.
Qed.

Lemma list_slice_In {A} n (l : list A) x : In x (slice_to n l) -> In x l.
Proof. unfold slice_to. destruct (0 <=? n); apply firstn_In. Qed.

Lemma list_slice_length {A} n (l : list A) :
  (List.length (slice_to n l) <= List.length l)%nat.
Proof. unfold slice_to. destruct (0 <=? n); rewrite length_firstn; lia. Qed.

Lemma qualifying_length ma rows :
  (List.length (qualifying ma rows) <= List.length rows)%nat.
Proof.
  unfold qualifying, candidates. generalize 0.
  induction rows as [|st rest IH]; intros index; cbn [candidates_from filter List.length];
    [lia|].
  specialize (IH (index + 1)). destruct (qualifies _); cbn [List.length]; lia.
Qed.

End ReportFacts.

(** X5. The price range of the report is "Unknown" or starts with "$".
    It is "Unknown" exactly when the estimated-sales text yields no
    positive number, and then the store gets no price bonus from any
    marketplace. *)
Theorem X5_unknown_price_range (st : Enhanced.store) :
  let text := Enhanced.str_cell (Enhanced.Estimated_Sales st) in
  (Enhanced._estimate_price_range st = "Unknown"
   \/ prefix "$" (Enhanced._estimate_price_range st) = true)
  /\ (Enhanced._estimate_price_range st = "Unknown" <->
      Enhanced.monthly_sales_of text = None
      \/ exists monthly_sales,
           Enhanced.monthly_sales_of text = Some monthly_sales
           /\ PrimFloat.ltb PyNum.fzero monthly_sales = false)
  /\ (forall ma, Enhanced._estimate_price_range st = "Unknown" -> Terms.price_term st ma = 0)
  /\ (PyStr.str_in "USD" text = false -> Enhanced._estimate_price_range st = "Unknown").
Proof.
  intros text. subst text.
  unfold Enhanced._estimate_price_range, Terms.price_term.
  split; [|split; [|split]].
  - destruct (Enhanced.monthly_sales_of _) as [ms|]; [|now left].
    destruct (PrimFloat.ltb PyNum.fzero ms); [right|now left].
    apply prefix_app. eexists. reflexivity.
  - destruct (Enhanced.monthly_sales_of _) as [ms|].
    + destruct (PrimFloat.ltb PyNum.fzero ms) eqn:E.
      * split; [discriminate|]. intros [H|(ms' & H & H')]; [discriminate H|].
        inversion H. subst ms'. congruence.
      * split; [|reflexivity]. intros _. right. now exists ms.
    + split; [now left|reflexivity].
  - intros ma. destruct (Enhanced.monthly_sales_of _) as [ms|].
    + destruct (PrimFloat.ltb PyNum.fzero ms); [discriminate|].
      intros _. now destruct (PrimFloat.ltb PyNum.fzero (Terms.average_of ma)).
    + intros _. now destruct (PrimFloat.ltb PyNum.fzero (Terms.average_of ma)).
  - intros H. unfold Enhanced.monthly_sales_of. now rewrite H.
Qed.

(** X6. A report entry says "Yes" for international shipping exactly when
    the store's shipping text holds "International", and every such store
    has the shipping bonus of 10 in its score; the entry says "Unknown"
    otherwise. *)
Theorem X6_international_shipping (index score : Z) (st : Enhanced.store) :
  let info := Enhanced.make_store_info index st score in
  (Enhanced.international_shipping info = "Yes"
   \/ Enhanced.international_shipping info = "Unknown")
  /\ (Enhanced.international_shipping info = "Yes" <->
      PyStr.str_in "International" (Enhanced.str_cell (Enhanced.Ships_To st)) = true)
  /\ (Enhanced.international_shipping info = "Yes" -> Terms.shipping_term st = 10).
Proof.
  intros info. subst info. cbn [Enhanced.international_shipping Enhanced.make_store_info].
  unfold Terms.shipping_term.
  destruct (PyStr.str_in "International" _).
  - repeat split; auto.
  - repeat split; auto; discriminate.
Qed.

(** X7. In a report entry the description has at most 200 characters and
    is the start of the store's description, the score is the one
    computed, and the store name taken from a URL holds no point. *)
Theorem X7_report_entry_fields (index score : Z) (st : Enhanced.store) :
  let info := Enhanced.make_store_info index st score in
  (String.length (Enhanced.description info) <= 200)%nat
  /\ prefix (Enhanced.description info) (Enhanced.str_cell (Enhanced.Description st)) = true
  /\ Enhanced.compatibility_score info = score
  /\ (forall u, Enhanced.URL st = Enhanced.Val u ->
                Enhanced.store_url info = u
                /\ PyStr.str_in "." (Enhanced.store_name info) = false)
  /\ (Missing.no_text (Enhanced.URL st) ->
      Enhanced.store_url info = ""
      /\ Enhanced.store_name info = "Store_" ++ PyStr.str_of_Z index).
Proof.
  intros info. subst info.
  cbn [Enhanced.description Enhanced.compatibility_score Enhanced.store_url
       Enhanced.store_name Enhanced.make_store_info].
  split; [|split; [|split; [|split]]].
  - destruct (Enhanced.Description st); [cbn; lia|cbn; lia|apply slice_to_length].
  - destruct (Enhanced.Description st); cbn [Enhanced.str_cell]; try reflexivity.
    apply slice_to_prefix.
  - reflexivity.
  - intros u ->. split; [reflexivity|]. apply split_head_no_sep.
  - destruct (Enhanced.URL st); cbn; try contradiction; auto.
Qed.

(** X8. Whatever [max_suppliers] is, every entry returned is the report
    entry of a row of the table, made with that row's position and score,
    and that score is above 30 and at most 100; no more entries are
    returned than the table has rows. *)
Theorem X8_entries_come_from_rows (max_suppliers : Z) (ma : Analysis.t)
        (rows : list Enhanced.store) :
  let out := Enhanced.generate_supplier_recommendations max_suppliers ma (Some rows) in
  (forall info, In info out ->
     exists i st,
       nth_error rows i = Some st
       /\ info = Enhanced.make_store_info (Z.of_nat i) st
                   (Enhanced._calculate_compatibility_score st ma)
       /\ 30 < Enhanced.compatibility_score info <= 100)
  /\ (List.length out <= List.length rows)%nat.
Proof.
  intros out. subst out. rewrite generate_spec. split.
  - intros info Hin. apply list_slice_In in Hin.
    apply (Permutation_in _ (sort_desc_perm _)) in Hin.
    unfold Ranking.qualifying in Hin. apply filter_In in Hin. destruct Hin as [Hin Hq].
    apply candidates_from_In in Hin. destruct Hin as (i & st & Hnth & ->).
    exists i, st. split; [exact Hnth|]. split; [reflexivity|].
    unfold Ranking.qualifies in Hq. apply Z.ltb_lt in Hq.
    cbn [Enhanced.compatibility_score Enhanced.make_store_info] in *.
    split; [exact Hq|]. rewrite score_is_capped_sum. lia.
  - etransitivity; [apply list_slice_length|].
    rewrite (Permutation_length (sort_desc_perm _)). apply qualifying_length.
Qed.

(** X9. Asking for fewer suppliers gives the start of what asking for more
    gives: for [0 <= m <= n] the list for [m] is the first [m] entries of
    the list for [n]. *)
Theorem X9_fewer_is_a_prefix (m n : Z) (ma : Analysis.t) (stores_df : option (list Enhanced.store))
        (Hm : 0 <= m) (Hmn : m <= n) :
  Enhanced.generate_supplier_recommendations m ma stores_df
  = firstn (Z.to_nat m) (Enhanced.generate_supplier_recommendations n ma stores_df).
Proof.
  destruct stores_df as [rows|]; [|cbn; now rewrite firstn_nil].
  rewrite !generate_spec, !slice_to_nonneg by lia.
  rewrite firstn_firstn. f_equal. lia.
Qed.

(** X9, witness: one supplier asked for, against two. *)
Lemma X9_fewer_is_a_prefix_witness :
  Enhanced.generate_supplier_recommendations 1 Examples.value_electronics
    (Some Examples.two_suppliers)
  = firstn (Z.to_nat 1)
      (Enhanced.generate_supplier_recommendations 2 Examples.value_electronics
         (Some Examples.two_suppliers)).
Proof.
  exact (X9_fewer_is_a_prefix 1 2 Examples.value_electronics (Some Examples.two_suppliers)
           Z.le_0_1 (Zle_bool_imp_le 1 2 eq_refl)).
Defined.

(** ** More on the feature extractor *)

Section ExtractorFacts.
Import Enhanced.

Lemma any_in_cons w ws s : PyStr.any_in (w :: ws) s = PyStr.str_in w s || PyStr.any_in ws s.
Proof. reflexivity. Qed.

Lemma suffix_has_point ext d :
  In ext (map fst country_domains) -> PyStr.str_in ext d = true -> PyStr.str_in "." d = true.
Proof.
  intros Hin H. apply (str_in_trans "." ext d); [|exact H].
  cbn in Hin. repeat (destruct Hin as [<-|Hin]; [vm_compute; reflexivity|]). contradiction.
Qed.

Lemma max_key_is_a_key scores k : max_key scores = Some k -> In k (map fst scores).
Proof.
  destruct scores as [|[k0 v0] rest]; [discriminate|].
  cbn [max_key]. intros H. inversion H as [Hk]. clear H Hk.
  assert (Hfold : forall rest best,
             In (fst (fold_left
                        (fun '(bk, bv) '(k', v') =>
                           if (bv : Z) <? v' then (k', v') else ((bk : string), bv))
                        rest best))
                (fst best :: map fst rest)).
  { clear. induction rest as [|[k' v'] rest IH]; intros [bk bv]; cbn [fold_left map fst].
    - now left.
    - destruct (bv <? v').
      + specialize (IH (k', v')). cbn [fst] in IH. destruct IH as [<-|IH].
        * right. now left.
        * right. now right.
      + specialize (IH (bk, bv)). cbn [fst] in IH. destruct IH as [<-|IH].
        * now left.
        * right. now right. }
  apply (Hfold rest (k0, v0)).
Qed.

Lemma findall_absent sym fraction s :
  PyStr.str_in sym s = false -> Re.findall sym fraction s = [].
Proof.
  unfold Re.findall. induction s as [|c r IH]; intros H; [reflexivity|].
  rewrite str_in_cons in H. apply orb_false_iff in H. destruct H as [Hp Hr].
  cbn [Re.findall_from]. unfold Re.match_price. rewrite Hp. now apply IH.
Qed.

End ExtractorFacts.

(** X10. The description extracted has at most 200 characters.  A meta
    description decides it alone, even without a [content] attribute; the
    first paragraph counts only when there is none; without both the
    description is empty. *)
Theorem X10_description_bounded (soup : Soup.t) :
  (String.length (Enhanced._extract_description soup) <= 200)%nat
  /\ (forall meta, Soup.find (Soup.by_attr "meta" "name" "description") soup = Some meta ->
        Soup.attr "content" (Soup.node_attrs meta) = None ->
        Enhanced._extract_description soup = "")
  /\ (forall meta content,
        Soup.find (Soup.by_attr "meta" "name" "description") soup = Some meta ->
        Soup.attr "content" (Soup.node_attrs meta) = Some content ->
        prefix (Enhanced._extract_description soup) content = true)
  /\ (Soup.find (Soup.by_attr "meta" "name" "description") soup = None ->
      Soup.find (Soup.by_name "p") soup = None ->
      Enhanced._extract_description soup = "").
Proof.
  unfold Enhanced._extract_description.
  destruct (Soup.find (Soup.by_attr "meta" "name" "description") soup) as [meta|].
  - split; [apply slice_to_length|]. split; [|split].
    + intros m Hm Hc. inversion Hm. subst m. now rewrite Hc.
    + intros m content Hm Hc. inversion Hm. subst m. rewrite Hc. apply slice_to_prefix.
    + discriminate.
  - split.
    + destruct (Soup.find (Soup.by_name "p") soup); [apply slice_to_length|cbn; lia].
    + split; [discriminate|]. split; [discriminate|].
      intros _ Hp. now rewrite Hp.
Qed.

(** X11. The currency detected is one of USD, EUR, GBP, JPY and INR, and
    it is USD whenever the page text holds a dollar sign, whatever other
    currency it names. *)
Theorem X11_currency_detected (soup : Soup.t) :
  In (Enhanced._detect_currency soup) ["USD"; "EUR"; "GBP"; "JPY"; "INR"]
  /\ (PyStr.str_in "$" (Soup.get_text soup) = true -> Enhanced._detect_currency soup = "USD").
Proof.
  unfold Enhanced._detect_currency. split.
  - destruct (find _ Enhanced.currency_indicators) as [[currency indicators]|] eqn:E;
      [|now left].
    apply find_some in E. destruct E as [E _]. cbn in E.
    repeat (destruct E as [E|E]; [inversion E; cbn; tauto|]). contradiction.
  - intros H. apply str_in_lower in H. change (PyStr.lower "$") with "$" in H.
    unfold Enhanced.currency_indicators. cbn [find]. now rewrite any_in_cons, H.
Qed.

(** X11, witness: a price in dollars on a page that names the yen. *)
Lemma X11_currency_detected_witness :
  Enhanced._detect_currency [Soup.Text "5000 yen or $45"] = "USD".
Proof.
  exact (proj2 (X11_currency_detected [Soup.Text "5000 yen or $45"]) eq_refl).
Defined.

(** X12. The country detected depends on the host only up to case; it is
    "US" for a host without a point; and the table entry for ".co.uk" never
    decides, since ".uk" stands before it: the result is the same without
    that entry. *)
Theorem X12_country_detected (netloc : string) :
  Enhanced._detect_country (PyStr.lower netloc) = Enhanced._detect_country netloc
  /\ (PyStr.str_in "." (PyStr.lower netloc) = false -> Enhanced._detect_country netloc = "US")
  /\ Enhanced._detect_country netloc
     = match find (fun '(domain_ext, _) => PyStr.str_in domain_ext (PyStr.lower netloc))
                  (match Enhanced.country_domains with
                   | first :: _ :: rest => first :: rest
                   | table => table
                   end) with
       | Some (_, country) => country
       | None => "US"
       end.
Proof.
  unfold Enhanced._detect_country. rewrite lower_idempotent.
  split; [reflexivity|]. split.
  - intros H.
    destruct (find _ Enhanced.country_domains) as [[ext country]|] eqn:E; [|reflexivity].
    apply find_some in E. destruct E as [Hin Hext].
    assert (PyStr.str_in "." (PyStr.lower netloc) = true); [|congruence].
    apply (suffix_has_point ext); [|exact Hext].
    apply in_map_iff. now exists (ext, country).
  - unfold Enhanced.country_domains. cbn [find].
    destruct (PyStr.str_in ".uk" (PyStr.lower netloc)) eqn:Huk; [reflexivity|].
    destruct (PyStr.str_in ".co.uk" (PyStr.lower netloc)) eqn:Hco; [|reflexivity].
    assert (PyStr.str_in ".uk" (PyStr.lower netloc) = true); [|congruence].
    apply (str_in_trans ".uk" ".co.uk"); [vm_compute; reflexivity|exact Hco].
Qed.

(** X13. The brand analysis counts between 0 and 5 luxury words and
    between 0 and 5 value words, and its positioning is "premium" exactly
    when the luxury count is the greater, "value" exactly when the value
    count is the greater, and "mid-market" exactly when the counts are
    equal.  Against a marketplace with equal counts no store gets the
    positioning bonus. *)
Theorem X13_brand_analysis (soup : Soup.t) :
  let b := Enhanced._analyze_brands soup in
  0 <= BrandAnalysis.luxury_score b <= 5
  /\ 0 <= BrandAnalysis.value_score b <= 5
  /\ (BrandAnalysis.positioning b = "premium" <->
      BrandAnalysis.value_score b < BrandAnalysis.luxury_score b)
  /\ (BrandAnalysis.positioning b = "value" <->
      BrandAnalysis.luxury_score b < BrandAnalysis.value_score b)
  /\ (BrandAnalysis.positioning b = "mid-market" <->
      BrandAnalysis.luxury_score b = BrandAnalysis.value_score b)
  /\ forall st ma,
       Analysis.brand_analysis ma = b ->
       BrandAnalysis.luxury_score b = BrandAnalysis.value_score b ->
       Terms.positioning_term st ma = 0.
Proof.
  intros b. subst b. unfold Enhanced._analyze_brands.
  cbn [BrandAnalysis.luxury_score BrandAnalysis.value_score BrandAnalysis.positioning].
  set (text := PyStr.lower (Soup.get_text soup)).
  pose proof (count_in_bounds Enhanced.luxury_indicators text) as Hl.
  pose proof (count_in_bounds Enhanced.value_indicators text) as Hv.
  cbn [List.length Enhanced.luxury_indicators Enhanced.value_indicators] in Hl, Hv.
  set (l := PyStr.count_in Enhanced.luxury_indicators text) in *.
  set (v := PyStr.count_in Enhanced.value_indicators text) in *.
  split; [lia|]. split; [lia|].
  destruct (v <? l) eqn:E1; [|destruct (l <? v) eqn:E2].
  - apply Z.ltb_lt in E1. repeat split; intros; try reflexivity; try discriminate; lia.
  - apply Z.ltb_ge in E1. apply Z.ltb_lt in E2.
    repeat split; intros; try reflexivity; try discriminate; lia.
  - apply Z.ltb_ge in E1, E2.
    repeat split; intros; try reflexivity; try discriminate; try lia.
    unfold Terms.positioning_term, Terms.positioning_of.
    match goal with H : Analysis.brand_analysis _ = _ |- _ => rewrite H end.
    reflexivity.
Qed.

(** X14. The language detected is the first two characters of the [lang]
    attribute of the [html] element when it has one; for a page without
    one it is one of en, es, fr, de, it and pt. *)
Theorem X14_language_detected (soup : Soup.t) :
  (forall root lang,
     Soup.find (Soup.having_attr "html" "lang") soup = Some root ->
     Soup.attr "lang" (Soup.node_attrs root) = Some lang ->
     Enhanced._detect_language soup = PyStr.slice_to 2 lang
     /\ (String.length (Enhanced._detect_language soup) <= 2)%nat)
  /\ (Soup.find (Soup.having_attr "html" "lang") soup = None ->
      In (Enhanced._detect_language soup) ["en"; "es"; "fr"; "de"; "it"; "pt"]).
Proof.
  unfold Enhanced._detect_language. split.
  - intros root lang Hroot Hlang. rewrite Hroot, Hlang.
    split; [reflexivity|apply slice_to_length].
  - intros Hnone. rewrite Hnone.
    destruct (Enhanced.max_key _) as [k|] eqn:E; [|now left].
    apply max_key_is_a_key in E. rewrite map_map in E. cbn in E.
    cbn. tauto.
Qed.

(** X14, witness: the page of the extraction scenario. *)
Lemma X14_language_detected_witness :
  (String.length (Enhanced._detect_language Examples.tokyo_style) <= 2)%nat.
Proof.
  refine (proj2 (proj1 (X14_language_detected Examples.tokyo_style)
                   (Soup.Elem "html" [("lang", "ja")]
                      [ Soup.Elem "head" [] [ Soup.Elem "title" [] [ Soup.Text "Tokyo Style" ] ];
                        Soup.Elem "body" []
                          [ Soup.Text "Premium Japanese fashion, $120 dresses" ] ])
                   "ja" eq_refl eq_refl)).
Defined.

(** X15. A page whose text holds none of the five currency signs has
    all-zero price statistics, and against such a marketplace no store gets
    a price bonus. *)
Theorem X15_no_currency_sign (soup : Soup.t)
        (Hnone : forall sym, In sym (map fst Enhanced.price_patterns) ->
                             PyStr.str_in sym (Soup.get_text soup) = false) :
  Enhanced.collect_prices (Soup.get_text soup) = []
  /\ Enhanced._analyze_prices soup
     = PriceAnalysis.mk PyNum.fzero PyNum.fzero PyNum.fzero 0 "USD"
  /\ forall st ma,
       Analysis.price_analysis ma = Enhanced._analyze_prices soup ->
       Terms.price_term st ma = 0.
Proof.
  assert (Hprices : Enhanced.collect_prices (Soup.get_text soup) = []).
  { rewrite collect_prices_spec. unfold PriceSpec.parsed_values, Enhanced.price_patterns.
    cbn [flat_map].
    rewrite !findall_absent by (apply Hnone; cbn; tauto). reflexivity. }
  assert (Hstats : Enhanced._analyze_prices soup
                   = PriceAnalysis.mk PyNum.fzero PyNum.fzero PyNum.fzero 0 "USD").
  { unfold Enhanced._analyze_prices. now rewrite Hprices. }
  split; [exact Hprices|]. split; [exact Hstats|].
  intros st ma Hma. unfold Terms.price_term, Terms.average_of.
  rewrite Hma, Hstats. reflexivity.
Qed.

(** X15, witness: a page without any price. *)
Lemma X15_no_currency_sign_witness :
  Enhanced._analyze_prices [Soup.Text "Handmade ceramics from Kyoto"]
  = PriceAnalysis.mk PyNum.fzero PyNum.fzero PyNum.fzero 0 "USD".
Proof.
  refine (proj1 (proj2 (X15_no_currency_sign [Soup.Text "Handmade ceramics from Kyoto"] _))).
  intros sym Hsym. cbn in Hsym.
  repeat (destruct Hsym as [<-|Hsym]; [vm_compute; reflexivity|]). contradiction.
Defined.

(** ** The run as a whole *)

Section RunFacts.
Import Enhanced Ranking.

Lemma slice_sorted n l :
  StronglySorted score_ge l -> StronglySorted score_ge (slice_to n l).
Proof. intros H. unfold slice_to. destruct (0 <=? n); now apply firstn_sorted. Qed.

Lemma generate_sorted max ma stores_df :
  StronglySorted score_ge (generate_supplier_recommendations max ma stores_df).
Proof.
  destruct stores_df as [rows|]; [|constructor].
  rewrite generate_spec. apply slice_sorted, sort_desc_sorted.
Qed.

Lemma generate_scores max ma stores_df :
  Forall (fun info => 30 < compatibility_score info <= 100)
         (generate_supplier_recommendations max ma stores_df).
Proof.
  destruct stores_df as [rows|]; [|constructor].
  rewrite generate_spec, Forall_forall. intros info Hin.
  apply list_slice_In in Hin. apply (Permutation_in _ (sort_desc_perm _)) in Hin.
  unfold qualifying in Hin. apply filter_In in Hin. destruct Hin as [Hin Hq].
  apply candidates_from_In in Hin. destruct Hin as (i & st & _ & ->).
  unfold qualifies in Hq. apply Z.ltb_lt in Hq.
  cbn [compatibility_score make_store_info] in *.
  split; [exact Hq|]. rewrite score_is_capped_sum. lia.
Qed.

Lemma string_app_cancel (t a b : string) : t ++ a = t ++ b -> a = b.
Proof. induction t as [|c t IH]; cbn; intros H; [exact H|]. inversion H. auto. Qed.

Lemma save_results_nonempty timestamp ma x rest :
  save_results timestamp ma (x :: rest)
  = ([("matching_results_" ++ timestamp ++ ".csv", Csv (x :: rest));
      ("matching_results_" ++ timestamp ++ "_summary.json",
       Json (mk_summary ma (x :: rest)
               (mk_summary_stats (Z.of_nat (List.length (x :: rest)))
                  (PyNum.Float
                     (PyNum.true_div
                        (fold_left Z.add (map compatibility_score (x :: rest)) 0)
                        (Pos.of_nat (List.length (x :: rest)))))
                  (firstn 5 (Analysis.categories ma))
                  "all_japan_stores_unlimited.csv")))],
     Returned ("matching_results_" ++ timestamp ++ ".csv",
               "matching_results_" ++ timestamp ++ "_summary.json")).
Proof. reflexivity. Qed.

End RunFacts.


(** X17. Every tabular file a run of the enhanced analyzer writes is not
    empty, is sorted by non-increasing score, and holds only scores above
    30 and at most 100, whatever [max_suppliers] is. *)
Theorem X17_tabular_file_rows (env : Enhanced.environment) (name : string)
        (rows : list Enhanced.store_info)
        (Hfile : In (name, Enhanced.Csv rows) (fst (Enhanced.main env))) :
  rows <> []
  /\ StronglySorted Ranking.score_ge rows
  /\ Forall (fun info => 30 < Enhanced.compatibility_score info <= 100) rows.
Proof.
  unfold Enhanced.main in Hfile.
  destruct (Enhanced.parse_arguments (Enhanced.argv env)) as [stop|[url max_suppliers]];
    [contradiction|].
  destruct (Enhanced.database env) as [table|]; [|contradiction].
  destruct (Enhanced.analyze_marketplace env url) as [ma|]; [|contradiction].
  pose proof (generate_sorted max_suppliers ma (Some table)) as Hsorted.
  pose proof (generate_scores max_suppliers ma (Some table)) as Hscores.
  destruct (Enhanced.generate_supplier_recommendations max_suppliers ma (Some table))
    as [|x more].
  - cbn in Hfile. destruct Hfile as [H|[]]. discriminate H.
  - rewrite save_results_nonempty in Hfile. cbn [fst] in Hfile.
    destruct Hfile as [H|[H|[]]]; [|discriminate H].
    inversion H. subst rows. repeat split; [discriminate|assumption|assumption].
Qed.

(** X17, witness: a run against the two sample suppliers. *)
Lemma X17_tabular_file_rows_witness :
  exists rows,
    In ("matching_results_20250101_120000.csv", Enhanced.Csv rows)
       (fst (Enhanced.main
               (Examples.run_with ["analyzer.py"; "https://shop.example.com"]
                  (Some Examples.two_suppliers))))
    /\ rows <> [].
Proof.
  eexists. split.
  - vm_compute. left. reflexivity.
  - exact (proj1 (X17_tabular_file_rows
                    (Examples.run_with ["analyzer.py"; "https://shop.example.com"]
                       (Some Examples.two_suppliers))
                    "matching_results_20250101_120000.csv" _
                    ltac:(vm_compute; left; reflexivity))).
Defined.

(** ** Lemmas on file names and matches *)

Section NameLemmas.
Import TextEnd.

Lemma last_char_app a b : b <> "" -> last_char (a ++ b) = last_char b.
Proof.
  intros Hb. induction a as [|c a IH]; [reflexivity|].
  cbn [append last_char]. rewrite IH.
  destruct (a ++ b) eqn:E; [|reflexivity].
  destruct a; cbn in E; [congruence|discriminate].
Qed.

Lemma string_length_app a b : String.length (a ++ b) = (String.length a + String.length b)%nat.
Proof. induction a as [|c a IH]; cbn; [reflexivity|now rewrite IH]. Qed.

Lemma string_app_cancel_r a b t : a ++ t = b ++ t -> a = b.
Proof.
  revert b. induction a as [|c a IH]; intros [|d b] H; cbn in H.
  - reflexivity.
  - apply (f_equal String.length) in H. cbn in H. rewrite string_length_app in H. lia.
  - apply (f_equal String.length) in H. cbn in H. rewrite string_length_app in H. lia.
  - inversion H. f_equal. now apply IH.
Qed.

Lemma csv_is_not_json t1 t2 :
  "matching_results_" ++ t1 ++ ".csv" <> "matching_results_" ++ t2 ++ "_summary.json".
Proof.
  intros H. apply (f_equal last_char) in H.
  rewrite <- !string_app_assoc in H.
  rewrite !last_char_app in H by discriminate. discriminate H.
Qed.

Lemma span_app p s : s = fst (PyStr.span p s) ++ snd (PyStr.span p s).
Proof.
  induction s as [|c r IH]; [reflexivity|].
  cbn [PyStr.span]. destruct (p c); [|reflexivity].
  destruct (PyStr.span p r) as [a b]. cbn [fst snd] in *. cbn. now rewrite <- IH.
Qed.

Lemma drop_app a b : Re.drop (String.length a) (a ++ b) = b.
Proof. induction a as [|c a IH]; cbn; [now destruct b|exact IH]. Qed.

Lemma string_app_nil_r (a : string) : a ++ "" = a.
Proof. induction a as [|c a IH]; cbn; [reflexivity|now rewrite IH]. Qed.

Lemma prefix_of_app a b : prefix a (a ++ b) = true.
Proof. apply prefix_app. now exists b. Qed.

Lemma match_price_prefix sym fraction s m :
  Re.match_price sym fraction s = Some m ->
  prefix m s = true /\ prefix sym m = true.
Proof.
  unfold Re.match_price. destruct (prefix sym s) eqn:Hp; [|discriminate].
  apply prefix_app in Hp. destruct Hp as [t ->]. rewrite drop_app.
  pose proof (span_app Re.is_digit_or_comma t) as Ht.
  destruct (PyStr.span Re.is_digit_or_comma t) as [body rest]. cbn [fst snd] in Ht.
  destruct body as [|c body]; [discriminate|].
  assert (Hgen : forall tail left_over,
             rest = tail ++ left_over ->
             prefix (sym ++ String c body ++ tail) (sym ++ t) = true
             /\ prefix sym (sym ++ String c body ++ tail) = true).
  { intros tail left_over Hrest. split; [|apply prefix_of_app].
    apply prefix_app. exists left_over.
    now rewrite Ht, Hrest, !string_app_assoc. }
  destruct fraction.
  - assert (Hplain : Some (sym ++ String c body ++ fst (PyStr.span PyStr.is_digit rest))
                     = Some m ->
                     prefix m (sym ++ t) = true /\ prefix sym m = true).
    { intros [= <-]. apply (Hgen _ (snd (PyStr.span PyStr.is_digit rest))).
      apply span_app. }
    destruct rest as [|d rest']; [exact Hplain|].
    destruct (Ascii.eqb_spec d ".") as [->|Hd].
    + intros [= <-].
      apply (Hgen ("." ++ fst (PyStr.span PyStr.is_digit rest'))
                  (snd (PyStr.span PyStr.is_digit rest'))).
      cbn. f_equal. apply span_app.
    + destruct d as [[] [] [] [] [] [] [] []]; try exact Hplain. now contradiction Hd.
  - intros [= <-]. rewrite <- (string_app_nil_r (String c body)).
    apply (Hgen "" rest). reflexivity.
Qed.

Lemma findall_from_In sym fraction s : forall skip m,
  In m (Re.findall_from sym fraction skip s) ->
  PyStr.str_in m s = true /\ prefix sym m = true.
Proof.
  induction s as [|c r IH]; intros skip m Hin; [contradiction|].
  assert (Hrest : forall k, In m (Re.findall_from sym fraction k r) ->
                            PyStr.str_in m (String c r) = true /\ prefix sym m = true).
  { intros k Hk. apply IH in Hk. destruct Hk as [H1 H2]. split; [|exact H2].
    rewrite str_in_cons, H1. apply orb_true_r. }
  cbn [Re.findall_from] in Hin. destruct skip as [|k]; [|now apply (Hrest k)].
  destruct (Re.match_price sym fraction (String c r)) as [m0|] eqn:E; [|now apply (Hrest O)].
  destruct Hin as [<-|Hin]; [|eapply Hrest; exact Hin].
  apply match_price_prefix in E. destruct E as [E1 E2]. split; [|exact E2].
  rewrite str_in_cons, E1. reflexivity.
Qed.


End NameLemmas.

(** X18. The files [save_results] writes have different names, and two
    calls write files of the same name only when their time stamps are
    equal: a tabular file is never taken for a summary, and runs in
    different seconds do not overwrite each other. *)
Theorem X18_file_names (timestamp1 timestamp2 : string) (ma1 ma2 : Analysis.t)
        (suppliers1 suppliers2 : list Enhanced.store_info) :
  let names1 := map fst (fst (Enhanced.save_results timestamp1 ma1 suppliers1)) in
  let names2 := map fst (fst (Enhanced.save_results timestamp2 ma2 suppliers2)) in
  NoDup names1
  /\ (forall name, In name names1 -> In name names2 -> timestamp1 = timestamp2).
Proof.
  intros names1 names2. subst names1 names2.
  assert (Hcsv : forall a b, "matching_results_" ++ a ++ ".csv" = "matching_results_" ++ b ++ ".csv"
                             -> a = b).
  { intros a b H. apply string_app_cancel in H. now apply string_app_cancel_r in H. }
  assert (Hjson : forall a b, "matching_results_" ++ a ++ "_summary.json"
                              = "matching_results_" ++ b ++ "_summary.json" -> a = b).
  { intros a b H. apply string_app_cancel in H. now apply string_app_cancel_r in H. }
  pose proof (csv_is_not_json timestamp1 timestamp1) as H11.
  pose proof (csv_is_not_json timestamp1 timestamp2) as H12.
  pose proof (csv_is_not_json timestamp2 timestamp1) as H21.
  destruct suppliers1 as [|x1 r1], suppliers2 as [|x2 r2];
    rewrite ?save_results_nonempty; cbn [Enhanced.save_results fst snd map app];
    (split; [repeat constructor; cbn; intuition congruence|]);
    intros name Hin1 Hin2; cbn in Hin1, Hin2;
    repeat match goal with
           | H : _ \/ _ |- _ => destruct H
           | H : False |- _ => contradiction
           end; subst; auto; try congruence;
    try (exfalso; eauto; fail);
    match goal with
    | H : _ = _ |- _ => first [now apply Hcsv in H | now apply Hjson in H
                               | symmetry in H; now apply Hcsv in H
                               | symmetry in H; now apply Hjson in H
                               | exfalso; apply (csv_is_not_json _ _ H)
                               | exfalso; symmetry in H; apply (csv_is_not_json _ _ H)]
    end.
Qed.

(** X18, witness: the two files of one call. *)
Lemma X18_file_names_witness :
  NoDup (map fst (fst (Enhanced.save_results "20250101_120000" Examples.value_electronics
                         (Enhanced.generate_supplier_recommendations 20
                            Examples.value_electronics (Some Examples.two_suppliers))))).
Proof.
  exact (proj1 (X18_file_names "20250101_120000" "20250101_120000"
                  Examples.value_electronics Examples.value_electronics _ [])).
Defined.


(** X20. Every price the analyzer keeps is read from a piece of the page
    text that starts with one of the five currency signs, and lies between
    1 and 50000. *)
Theorem X20_prices_follow_a_sign (text : string) (price : float)
        (Hkept : In price (Enhanced.collect_prices text)) :
  exists sym fraction m,
    In (sym, fraction) Enhanced.price_patterns
    /\ In m (Re.findall sym fraction text)
    /\ prefix sym m = true
    /\ PyStr.str_in m text = true
    /\ PriceSpec.parsed_value m = Some price
    /\ PrimFloat.leb PyNum.fone price = true
    /\ PrimFloat.leb price PyNum.f50000 = true.
Proof.
  rewrite collect_prices_spec in Hkept. apply filter_In in Hkept.
  destruct Hkept as [Hin Hrange]. unfold PriceSpec.in_range in Hrange.
  apply andb_true_iff in Hrange. destruct Hrange as [Hlo Hhi].
  unfold PriceSpec.parsed_values in Hin. apply in_flat_map in Hin.
  destruct Hin as ([sym fraction] & Hpat & Hin).
  unfold PriceSpec.values_of in Hin. apply in_flat_map in Hin.
  destruct Hin as (m & Hm & Hv).
  destruct (PriceSpec.parsed_value m) as [v|] eqn:E; [|contradiction].
  destruct Hv as [->|[]].
  pose proof (findall_from_In sym fraction text O m Hm) as [H1 H2].
  exists sym, fraction, m. repeat split; assumption.
Qed.

(** X20, witness: the price of the scenario page. *)
Lemma X20_prices_follow_a_sign_witness :
  exists sym fraction m,
    In (sym, fraction) Enhanced.price_patterns
    /\ In m (Re.findall sym fraction "Premium Japanese fashion, $120 dresses")
    /\ prefix sym m = true.
Proof.
  destruct (X20_prices_follow_a_sign "Premium Japanese fashion, $120 dresses" 120%float
              ltac:(vm_compute; left; reflexivity))
    as (sym & fraction & m & H1 & H2 & H3 & _).
  exists sym, fraction, m. repeat split; assumption.
Defined.

(** ** Lemmas on trimmed texts and on the order of floats *)

Section TrimLemmas.
Import PyStr TextEnd.

Lemma lstrip_first s c r : lstrip s = String c r -> is_space c = false.
Proof.
  induction s as [|a s IH]; cbn [lstrip]; [discriminate|].
  destruct (is_space a) eqn:E; [exact IH|].
  intros H. inversion H. now subst.
Qed.

Lemma rstrip_first a s c r : rstrip (String a s) = String c r -> c = a.
Proof.
  cbn [rstrip]. destruct (rstrip s).
  - destruct (is_space a); [discriminate|]. intros H. now inversion H.
  - intros H. now inversion H.
Qed.

Lemma rstrip_last s c : last_char (rstrip s) = Some c -> is_space c = false.
Proof.
  induction s as [|a s IH]; cbn [rstrip]; [discriminate|].
  destruct (rstrip s) as [|b r'] eqn:E.
  - destruct (is_space a) eqn:Ha; [discriminate|].
    cbn. intros H. inversion H. now subst.
  - intros H. apply IH. exact H.
Qed.

(** A stripped text neither starts nor ends with white space. *)
Lemma strip_trimmed s :
  (forall c r, strip s = String c r -> is_space c = false)
  /\ (forall c, last_char (strip s) = Some c -> is_space c = false).
Proof.
  unfold strip. split.
  - intros c r H. destruct (lstrip s) as [|a t] eqn:E; [discriminate H|].
    apply rstrip_first in H. subst c. eapply lstrip_first. exact E.
  - intros c. apply rstrip_last.
Qed.

End TrimLemmas.

Section FloatOrder.

Lemma SFltb_irrefl x : SFltb x x = false.
Proof.
  unfold SFltb. destruct x as [s|s| |s m e]; cbn; try destruct s; try reflexivity;
    rewrite Z.compare_refl;
    change (PosDef.Pos.compare_cont Eq m m) with (Pos.compare m m);
    now rewrite Pos.compare_refl.
Qed.

Lemma SFltb_asym x y : SFltb x y = true -> SFltb y x = false.
Proof.
  unfold SFltb. rewrite (SFcompare_antisym x y).
  destruct (SFcompare x y) as [[| |]|]; cbn; congruence.
Qed.

Lemma finite_compare_lt e1 m1 e2 m2 :
  match e1 ?= e2 with
  | Lt => Lt
  | Gt => Gt
  | Eq => PosDef.Pos.compare_cont Eq m1 m2
  end = Lt <-> e1 < e2 \/ (e1 = e2 /\ (m1 < m2)%positive).
Proof.
  change (PosDef.Pos.compare_cont Eq m1 m2) with (Pos.compare m1 m2).
  destruct (Z.compare_spec e1 e2) as [H|H|H].
  - rewrite Pos.compare_lt_iff. intuition lia.
  - intuition lia.
  - split; [discriminate|]. intuition lia.
Qed.

Lemma finite_compare_gt e1 m1 e2 m2 :
  match e1 ?= e2 with
  | Lt => Gt
  | Gt => Lt
  | Eq => CompOpp (PosDef.Pos.compare_cont Eq m1 m2)
  end = Lt <-> e2 < e1 \/ (e1 = e2 /\ (m2 < m1)%positive).
Proof.
  change (PosDef.Pos.compare_cont Eq m1 m2) with (Pos.compare m1 m2).
  destruct (Z.compare_spec e1 e2) as [H|H|H].
  - rewrite <- Pos.compare_antisym, Pos.compare_lt_iff. intuition lia.
  - split; [discriminate|]. intuition lia.
  - intuition lia.
Qed.

Lemma SFltb_finite s1 m1 e1 s2 m2 e2 :
  SFltb (S754_finite s1 m1 e1) (S754_finite s2 m2 e2) = true <->
  match s1, s2 with
  | true, false => True
  | false, true => False
  | false, false => e1 < e2 \/ (e1 = e2 /\ (m1 < m2)%positive)
  | true, true => e2 < e1 \/ (e1 = e2 /\ (m2 < m1)%positive)
  end.
Proof.
  unfold SFltb. cbn [SFcompare]. destruct s1, s2.
  - rewrite <- finite_compare_gt.
    destruct (match e1 ?= e2 with Lt => Gt | Gt => Lt | Eq => _ end);
      split; congruence.
  - split; auto.
  - split; [discriminate|contradiction].
  - rewrite <- finite_compare_lt.
    destruct (match e1 ?= e2 with Lt => Lt | Gt => Gt | Eq => _ end);
      split; congruence.
Qed.

Lemma SFltb_trans x y z : SFltb x y = true -> SFltb y z = true -> SFltb x z = true.
Proof.
  destruct x as [sx|sx| |sx mx ex], y as [sy|sy| |sy my ey], z as [sz|sz| |sz mz ez];
    try (unfold SFltb; cbn; repeat match goal with b : bool |- _ => destruct b end;
         cbn; congruence).
  rewrite !SFltb_finite. destruct sx, sy, sz; try tauto; lia.
Qed.

Lemma ltb_irrefl (x : float) : PrimFloat.ltb x x = false.
Proof. rewrite ltb_spec. apply SFltb_irrefl. Qed.

Lemma ltb_asym (x y : float) : PrimFloat.ltb x y = true -> PrimFloat.ltb y x = false.
Proof. rewrite !ltb_spec. apply SFltb_asym. Qed.

Lemma ltb_trans (x y z : float) :
  PrimFloat.ltb x y = true -> PrimFloat.ltb y z = true -> PrimFloat.ltb x z = true.
Proof. rewrite !ltb_spec. apply SFltb_trans. Qed.

(** [min(prices)]: an element of the list that no element is below. *)
Lemma fmin_least rest : forall first,
  let m := Enhanced.fmin first rest in
  In m (first :: rest)
  /\ (m = first \/ PrimFloat.ltb m first = true)
  /\ forall q, In q rest -> PrimFloat.ltb q m = false.
Proof.
  unfold Enhanced.fmin.
  induction rest as [|x rest IH]; intros cur; cbn [fold_left].
  - split; [now left|]. split; [now left|]. contradiction.
  - destruct (PrimFloat.ltb x cur) eqn:E.
    + destruct (IH x) as (Hin & Hle & Hall). split; [now right|]. split.
      * right. destruct Hle as [->|Hlt]; [exact E|]. eapply ltb_trans; eauto.
      * intros q [<-|Hq]; [|now apply Hall].
        destruct Hle as [->|Hlt]; [apply ltb_irrefl|now apply ltb_asym].
    + destruct (IH cur) as (Hin & Hle & Hall). split.
      * destruct Hin as [Hin|Hin]; [now left|right; now right].
      * split; [exact Hle|]. intros q [<-|Hq]; [|now apply Hall].
        destruct (PrimFloat.ltb x (fold_left _ rest cur)) eqn:Hx; [|reflexivity].
        destruct Hle as [Heq|Hlt].
        -- rewrite Heq in Hx. congruence.
        -- rewrite (ltb_trans _ _ _ Hx Hlt) in E. discriminate E.
Qed.

(** [max(prices)]: an element of the list that no element is above. *)
Lemma fmax_greatest rest : forall first,
  let m := Enhanced.fmax first rest in
  In m (first :: rest)
  /\ (m = first \/ PrimFloat.ltb first m = true)
  /\ forall q, In q rest -> PrimFloat.ltb m q = false.
Proof.
  unfold Enhanced.fmax.
  induction rest as [|x rest IH]; intros cur; cbn [fold_left].
  - split; [now left|]. split; [now left|]. contradiction.
  - destruct (PrimFloat.ltb cur x) eqn:E.
    + destruct (IH x) as (Hin & Hle & Hall). split; [now right|]. split.
      * right. destruct Hle as [->|Hlt]; [exact E|]. eapply ltb_trans; eauto.
      * intros q [<-|Hq]; [|now apply Hall].
        destruct Hle as [->|Hlt]; [apply ltb_irrefl|now apply ltb_asym].
    + destruct (IH cur) as (Hin & Hle & Hall). split.
      * destruct Hin as [Hin|Hin]; [now left|right; now right].
      * split; [exact Hle|]. intros q [<-|Hq]; [|now apply Hall].
        destruct (PrimFloat.ltb (fold_left _ rest cur) x) eqn:Hx; [|reflexivity].
        destruct Hle as [Heq|Hlt].
        -- rewrite Heq in Hx. congruence.
        -- rewrite (ltb_trans _ _ _ Hlt Hx) in E. discriminate E.
Qed.

End FloatOrder.

(** X21. When prices are kept, the minimum and the maximum of the
    statistics are two of the kept prices, rounded to two decimals: no kept
    price is below the first, none is above the second. *)
Theorem X21_min_and_max_price (soup : Soup.t)
        (Hkept : Enhanced.collect_prices (Soup.get_text soup) <> []) :
  let prices := Enhanced.collect_prices (Soup.get_text soup) in
  let stats := Enhanced._analyze_prices soup in
  exists lowest highest,
    In lowest prices /\ In highest prices
    /\ PriceAnalysis.min_price stats = PyNum.round2 lowest
    /\ PriceAnalysis.max_price stats = PyNum.round2 highest
    /\ forall q, In q prices ->
                 PrimFloat.ltb q lowest = false /\ PrimFloat.ltb highest q = false.
Proof.
  intros prices stats. subst stats. unfold Enhanced._analyze_prices. fold prices.
  subst prices. destruct (Enhanced.collect_prices (Soup.get_text soup)) as [|first rest];
    [congruence|].
  destruct (fmin_least rest first) as (Hlo & Hlo1 & Hlo2).
  destruct (fmax_greatest rest first) as (Hhi & Hhi1 & Hhi2).
  exists (Enhanced.fmin first rest), (Enhanced.fmax first rest).
  cbn [PriceAnalysis.min_price PriceAnalysis.max_price].
  repeat split; try assumption.
  - destruct H as [<-|H]; [|now apply Hlo2].
    destruct Hlo1 as [->|Hlt]; [apply ltb_irrefl|now apply ltb_asym].
  - destruct H as [<-|H]; [|now apply Hhi2].
    destruct Hhi1 as [->|Hlt]; [apply ltb_irrefl|now apply ltb_asym].
Qed.

(** X21, witness: the page of the extraction scenario. *)
Lemma X21_min_and_max_price_witness :
  exists lowest highest,
    PriceAnalysis.min_price (Enhanced._analyze_prices Examples.tokyo_style)
    = PyNum.round2 lowest
    /\ PriceAnalysis.max_price (Enhanced._analyze_prices Examples.tokyo_style)
       = PyNum.round2 highest.
Proof.
  destruct (X21_min_and_max_price Examples.tokyo_style ltac:(vm_compute; discriminate))
    as (lowest & highest & _ & _ & Hmin & Hmax & _).
  exists lowest, highest. split; assumption.
Defined.

(** X22. The title extracted is "Unknown Marketplace" for a page without
    a title element, and it never starts or ends with white space; the same
    holds for the marketplace name in the summary of the fallback
    analyzer. *)
Theorem X22_title_trimmed (soup : Soup.t) (timestamp url : string) :
  (Soup.find (Soup.by_name "title") soup = None ->
   Enhanced._extract_title soup = "Unknown Marketplace")
  /\ (forall c r, Enhanced._extract_title soup = String c r -> PyStr.is_space c = false)
  /\ (forall c, TextEnd.last_char (Enhanced._extract_title soup) = Some c ->
                PyStr.is_space c = false)
  /\ (forall name s,
        In (name, Simple.Json s)
           (fst (Simple.analyze_marketplace (Some soup) timestamp url)) ->
        (forall c r, Simple.marketplace_name s = String c r -> PyStr.is_space c = false)
        /\ (forall c, TextEnd.last_char (Simple.marketplace_name s) = Some c ->
                      PyStr.is_space c = false)).
Proof.
  assert (Hdefault : forall d,
             (forall c r, d = String c r -> PyStr.is_space c = false) ->
             (forall c, TextEnd.last_char d = Some c -> PyStr.is_space c = false) ->
             let t := match Soup.find (Soup.by_name "title") soup with
                      | Some e => PyStr.strip (Soup.node_text e)
                      | None => d
                      end in
             (forall c r, t = String c r -> PyStr.is_space c = false)
             /\ (forall c, TextEnd.last_char t = Some c -> PyStr.is_space c = false)).
  { intros d H1 H2 t. subst t.
    destruct (Soup.find (Soup.by_name "title") soup) as [e|].
    - apply strip_trimmed.
    - split; assumption. }
  unfold Enhanced._extract_title.
  split; [now intros ->|].
  destruct (Hdefault "Unknown Marketplace") as [H1 H2].
  { intros c r H. inversion H. reflexivity. }
  { intros c H. vm_compute in H. inversion H. reflexivity. }
  split; [exact H1|]. split; [exact H2|].
  intros name s Hin. cbn [Simple.analyze_marketplace fst In] in Hin.
  destruct Hin as [H|[H|[]]]; [discriminate H|].
  inversion H. cbn [Simple.marketplace_name].
  apply (Hdefault "Unknown").
  - intros c r H'. inversion H'. reflexivity.
  - intros c H'. vm_compute in H'. inversion H'. reflexivity.
Qed.

Section AnalysisFacts.
Import Enhanced.

Lemma detect_currency_codes soup :
  In (_detect_currency soup) ["USD"; "EUR"; "GBP"; "JPY"; "INR"].
Proof.
  unfold _detect_currency.
  destruct (find _ currency_indicators) as [[currency indicators]|] eqn:E; [|now left].
  apply find_some in E. destruct E as [E _]. cbn in E.
  repeat (destruct E as [E|E]; [inversion E; cbn; tauto|]). contradiction.
Qed.

Lemma analyze_prices_currency soup :
  In (PriceAnalysis.currency_detected (_analyze_prices soup))
     ["USD"; "EUR"; "GBP"; "JPY"; "INR"].
Proof.
  unfold _analyze_prices. destruct (collect_prices _); cbn; [tauto|].
  apply detect_currency_codes.
Qed.

Lemma analyze_prices_count soup :
  PriceAnalysis.price_count (_analyze_prices soup)
  = Z.of_nat (List.length (collect_prices (Soup.get_text soup))).
Proof. unfold _analyze_prices. now destruct (collect_prices _). Qed.

Lemma detect_country_codes netloc :
  In (_detect_country netloc) ("US" :: map snd country_domains).
Proof.
  unfold _detect_country.
  destruct (find _ country_domains) as [[ext country]|] eqn:E; [|now left].
  apply find_some in E. destruct E as [E _]. right.
  apply in_map_iff. now exists (ext, country).
Qed.

Lemma extract_description_length soup :
  (String.length (_extract_description soup) <= 200)%nat.
Proof.
  unfold _extract_description.
  destruct (Soup.find (Soup.by_attr _ _ _) soup); [apply slice_to_length|].
  destruct (Soup.find (Soup.by_name _) soup); [apply slice_to_length|cbn; lia].
Qed.

Lemma extract_categories_labels soup :
  NoDup (_extract_categories soup)
  /\ incl (_extract_categories soup) (map fst category_keywords)
  /\ (List.length (_extract_categories soup) <= 10)%nat.
Proof.
  unfold _extract_categories. rewrite categories_of_text_spec. split; [|split].
  - apply NoDup_firstn, filtered_labels_nodup.
    vm_compute. repeat (constructor; [cbn; intuition discriminate|]). constructor.
  - intros c Hc. apply firstn_In in Hc. apply in_map_iff in Hc.
    destruct Hc as (entry & Hentry & Hin). apply filter_In in Hin.
    apply in_map_iff. exists entry. tauto.
  - apply firstn_le_length.
Qed.

Lemma analyze_brands_label soup :
  In (BrandAnalysis.positioning (_analyze_brands soup)) ["premium"; "value"; "mid-market"].
Proof.
  unfold _analyze_brands. cbn [BrandAnalysis.positioning].
  repeat destruct (_ <? _); cbn; tauto.
Qed.

End AnalysisFacts.

(** X23. [analyze_marketplace] fails exactly when the request fails.  The
    analysis it returns records the URL given and the time of the run; its
    categories are at most ten distinct labels of the keyword table, its
    positioning is premium, value or mid-market, its currency one of the
    five codes, its country "US" or a code of the domain table, its price
    count the number of prices kept, and its description no longer than
    200 characters. *)
Theorem X23_analysis_record (env : Enhanced.environment) (marketplace_url : string) :
  (Enhanced.analyze_marketplace env marketplace_url = None <->
   Enhanced.fetch env marketplace_url = None)
  /\ forall ma,
       Enhanced.analyze_marketplace env marketplace_url = Some ma ->
       exists soup,
         Enhanced.fetch env marketplace_url = Some soup
         /\ Analysis.url ma = marketplace_url
         /\ Analysis.analysis_timestamp ma = Enhanced.now_isoformat env
         /\ NoDup (Analysis.categories ma)
         /\ incl (Analysis.categories ma) (map fst Enhanced.category_keywords)
         /\ (List.length (Analysis.categories ma) <= 10)%nat
         /\ In (BrandAnalysis.positioning (Analysis.brand_analysis ma))
               ["premium"; "value"; "mid-market"]
         /\ In (PriceAnalysis.currency_detected (Analysis.price_analysis ma))
               ["USD"; "EUR"; "GBP"; "JPY"; "INR"]
         /\ PriceAnalysis.price_count (Analysis.price_analysis ma)
            = Z.of_nat (List.length (Enhanced.collect_prices (Soup.get_text soup)))
         /\ In (Analysis.country ma) ("US" :: map snd Enhanced.country_domains)
         /\ (String.length (Analysis.description ma) <= 200)%nat.
Proof.
  unfold Enhanced.analyze_marketplace.
  destruct (Enhanced.fetch env marketplace_url) as [soup|].
  - split; [split; discriminate|].
    intros ma H. inversion H. subst ma. clear H. exists soup.
    cbn [Analysis.url Analysis.analysis_timestamp Analysis.categories
         Analysis.brand_analysis Analysis.price_analysis Analysis.country
         Analysis.description].
    destruct (extract_categories_labels soup) as (H1 & H2 & H3).
    repeat split; try assumption.
    + apply analyze_brands_label.
    + apply analyze_prices_currency.
    + apply analyze_prices_count.
    + apply detect_country_codes.
    + apply extract_description_length.
  - split; [split; reflexivity|]. discriminate.
Qed.

(** X23, witness: the analysis of the scenario page. *)
Lemma X23_analysis_record_witness :
  exists ma,
    Enhanced.analyze_marketplace
      (Examples.run_with ["analyzer.py"; "https://shop.example.com"] None)
      "https://shop.example.com" = Some ma
    /\ Analysis.url ma = "https://shop.example.com".
Proof.
  eexists. split; [reflexivity|].
  destruct (proj2 (X23_analysis_record
                     (Examples.run_with ["analyzer.py"; "https://shop.example.com"] None)
                     "https://shop.example.com") _ eq_refl)
    as (soup & _ & Hurl & _).
  exact Hurl.
Defined.
